(** * code-atlas: notes, references and the note views

    A shallow embedding of [notes/models.py] and [notes/views.py].

    The Python objects are records, the relational tables are finite maps
    keyed by primary key, [random] is a tape of raw draws with a cursor, and
    the [while True] loop of [Note.save] runs on fuel.  Exceptions and an
    exhausted fuel are the two ways a computation has of not returning. *)

From Stdlib Require Import ZArith String Ascii List Lia Sorting.Sorted Permutation.
From stdpp Require Import base gmap list list_numbers strings sorting fin_sets fin_maps.

Local Open Scope string_scope.
Local Open Scope Z_scope.

(** ** Computations that may raise or run out of fuel *)

Inductive exn : Type :=
| ValueError
| IntegrityError.

Inductive result (A : Type) : Type :=
| Ok (a : A)
| Raise (e : exn)
| OutOfFuel.

Arguments Ok {A} a.
Arguments Raise {A} e.
Arguments OutOfFuel {A}.

Global Instance result_bind : MBind result := fun A B k m =>
  match m with
  | Ok a => k a
  | Raise e => Raise e
  | OutOfFuel => OutOfFuel
  end.

Global Instance result_ret : MRet result := fun A a => Ok a.

Definition returns {A : Type} (m : result A) : Prop := exists a, m = Ok a.

(** ** Primary keys as Python holds them

    [Note.id] is an [IntegerField]; on the instance it is [None] before the
    first save, an [int] when loaded from the table, and the [str] that
    [save] has just joined from eight drawn characters. *)

Inductive pk : Type :=
| PkNone
| PkInt (z : Z)
| PkStr (s : string).

(** Python truth value: [None], [0] and the empty string are false. *)
Definition truthy (p : pk) : bool :=
  match p with
  | PkNone => false
  | PkInt z => negb (z =? 0)
  | PkStr s => negb (String.eqb s "")
  end.

(** [string.digits] *)
Definition digits : string := "0123456789".

Definition digit_val (c : ascii) : option Z :=
  let n := Z.of_N (N_of_ascii c) in
  if (48 <=? n) && (n <=? 57) then Some (n - 48) else None.

Fixpoint int_acc (acc : Z) (s : string) : option Z :=
  match s with
  | EmptyString => Some acc
  | String c s' =>
      match digit_val c with
      | Some d => int_acc (acc * 10 + d) s'
      | None => None
      end
  end.

(** [int(s)] on a string of ASCII decimal digits, the only strings this
    program converts; anything else is a [ValueError]. *)
Definition int (s : string) : result Z :=
  match s with
  | EmptyString => Raise ValueError
  | _ => match int_acc 0 s with Some z => Ok z | None => Raise ValueError end
  end.

(** [IntegerField.get_prep_value]: the value a primary key has in a query. *)
Definition get_prep_value (p : pk) : result (option Z) :=
  match p with
  | PkNone => Ok None
  | PkInt z => Ok (Some z)
  | PkStr s => z ← int s; Ok (Some z)
  end.

(** ** The random module: a tape of raw draws and a cursor *)

Record rng : Type := mk_rng { tape : nat -> nat; cursor : nat }.

Definition randbelow (n : nat) (g : rng) : nat * rng :=
  ((tape g (cursor g) mod n)%nat, mk_rng (tape g) (S (cursor g))).

(** [random.choice(seq)] is [seq[randbelow(len(seq))]]. *)
Definition choice (s : string) (g : rng) : ascii * rng :=
  let (i, g') := randbelow (String.length s) g in
  (match String.get i s with Some c => c | None => "0"%char end, g').

(** [''.join(random.choice(string.digits) for _ in range(n))] *)
Fixpoint random_digits (n : nat) (g : rng) : string * rng :=
  match n with
  | O => (EmptyString, g)
  | S n' =>
      let (c, g1) := choice digits g in
      let (s, g2) := random_digits n' g1 in
      (String c s, g2)
  end.

(** ** The models of [notes/models.py]

    The search vector type and the text-search function belong to the
    database; the tag serialiser, the form validation and the address a
    created Note redirects to are defined outside [models.py] and
    [views.py].  They are the parameters of the development. *)

Section Notes.

Context {tsvector : Type}.
(** The full-text vector the database builds from a title and a content. *)
Context (search_vector : string -> string -> tsvector).
(** [Note.tags_to_string], over the tags django-tagging attaches to a Note. *)
Context (tags_to_string : list string -> string).

(** [class Note(DateModel)]; [last_edited] comes from [DateModel], the tags
    from [register(Note)], the two counters from the spec's data model. *)
Record Note : Type := mk_Note {
  note_id : pk;
  note_user : Z;
  note_title : string;
  note_content : string;
  note_is_public : bool;
  note_document_vector : option tsvector;
  note_last_edited : Z;
  note_view_count : Z;
  note_clone_count : Z;
  note_tags : list string
}.

Definition set_id (p : pk) (n : Note) : Note :=
  mk_Note p (note_user n) (note_title n) (note_content n) (note_is_public n)
          (note_document_vector n) (note_last_edited n) (note_view_count n)
          (note_clone_count n) (note_tags n).

Definition set_document_vector (v : option tsvector) (n : Note) : Note :=
  mk_Note (note_id n) (note_user n) (note_title n) (note_content n)
          (note_is_public n) v (note_last_edited n) (note_view_count n)
          (note_clone_count n) (note_tags n).

Definition set_view_count (c : Z) (n : Note) : Note :=
  mk_Note (note_id n) (note_user n) (note_title n) (note_content n)
          (note_is_public n) (note_document_vector n) (note_last_edited n) c
          (note_clone_count n) (note_tags n).

Definition set_clone_count (c : Z) (n : Note) : Note :=
  mk_Note (note_id n) (note_user n) (note_title n) (note_content n)
          (note_is_public n) (note_document_vector n) (note_last_edited n)
          (note_view_count n) c (note_tags n).

(** [class Reference(DateModel)]; [ref_note] is the foreign key. *)
Record Reference : Type := mk_Reference {
  ref_note : Z;
  reference_url : string;
  reference_desc : string
}.

(** The tables: users by primary key, notes by [id], references by their
    automatic key. *)
Record database : Type := mk_database {
  users : gset Z;
  notes : gmap Z Note;
  references : gmap Z Reference
}.

Definition set_notes (m : gmap Z Note) (db : database) : database :=
  mk_database (users db) m (references db).

(** [Note.objects.filter(id=p).exists()] *)
Definition Note_objects_filter_id_exists (db : database) (p : pk) : result bool :=
  q ← get_prep_value p;
  match q with
  | Some z => Ok (bool_decide (is_Some (notes db !! z)))
  | None => Ok false
  end.

(** Modelled from the spec: the database-side maintenance of the search
    vector, which is not in [models.py]: "a maintained full-text search
    vector kept in sync with note content", "delegated entirely to the
    database's indexing; the application only re-triggers it on save".  Every
    write of a Note row computes the column from the row's title and
    content. *)
Definition reindex (n : Note) : Note :=
  set_document_vector (Some (search_vector (note_title n) (note_content n))) n.

(** [models.Model.save] for a Note: the row is written under the prepared
    primary key, updated when the key is there and inserted when it is not;
    the owner must be a stored user ([ForeignKey(User)]). *)
Definition Model_save (db : database) (self : Note) : result database :=
  q ← get_prep_value (note_id self);
  match q with
  | None => Raise IntegrityError
  | Some z =>
      if bool_decide (note_user self ∈ users db)
      then Ok (set_notes (<[z := reindex (set_id (PkInt z) self)]> (notes db)) db)
      else Raise IntegrityError
  end.

(** The [while True] loop of [Note.save], lines 43-46. *)
Fixpoint generate_id (fuel : nat) (db : database) (g : rng) : result (string * rng) :=
  match fuel with
  | O => OutOfFuel
  | S fuel' =>
      let (id, g') := random_digits 8 g in
      taken ← Note_objects_filter_id_exists db (PkStr id);
      if negb taken then Ok (id, g') else generate_id fuel' db g'
  end.

(** [Note.save], lines 40-48. *)
Definition Note_save (fuel : nat) (g : rng) (db : database) (self : Note)
  : result (Note * database * rng) :=
  '(self1, g1) ← (if negb (truthy (note_id self))
                  then '(id, g') ← generate_id fuel db g; Ok (set_id (PkStr id) self, g')
                  else Ok (self, g));
  db' ← Model_save db self1;
  Ok (self1, db', g1).

(** [Reference.save]: a new row takes the next free automatic key, an
    existing one is rewritten; the note must be a stored Note
    ([ForeignKey(Note)]). *)
Definition Reference_save (db : database) (key : option Z) (r : Reference)
  : result (Z * database) :=
  if bool_decide (is_Some (notes db !! ref_note r))
  then
    let k := match key with Some k => k | None => fresh (dom (references db)) end in
    Ok (k, mk_database (users db) (notes db) (<[k := r]> (references db)))
  else Raise IntegrityError.

(** [Note.delete] with [on_delete=models.CASCADE] on [Reference.note]. *)
Definition Note_delete (z : Z) (db : database) : database :=
  mk_database (users db) (delete z (notes db))
              (filter (fun kr => ref_note kr.2 ≠ z) (references db)).

(** Whether the Note stored under [z] belongs to user [u]. *)
Definition owned_by (db : database) (u z : Z) : bool :=
  match notes db !! z with
  | Some n => bool_decide (note_user n = u)
  | None => false
  end.

(** [User.delete]: [on_delete=models.CASCADE] on [Note.user] removes the
    user's Notes, and each removed Note takes its References with it. *)
Definition User_delete (u : Z) (db : database) : database :=
  mk_database (users db ∖ {[u]})
              (filter (fun kn => note_user kn.2 ≠ u) (notes db))
              (filter (fun kr => owned_by db u (ref_note kr.2) = false)
                      (references db)).

(** ** Requests and responses *)

(** [request.user]: the anonymous user or a stored [User]. *)
Inductive request_user : Type :=
| AnonymousUser
| User (uid : Z).

(** The fields a [NoteForm] posts. *)
Record NoteFormData : Type := mk_NoteFormData {
  form_title : string;
  form_content : string;
  form_is_public : bool;
  form_tags : list string
}.

Inductive http_method : Type :=
| GET
| POST (data : NoteFormData).

(** The [page] argument of a list request. *)
Inductive page_arg : Type :=
| PageAbsent
| PageInt (n : Z)
| PageLast
| PageOther.

Record request : Type := mk_request {
  req_user : request_user;
  req_method : http_method;
  req_pk : Z;
  req_page : page_arg;
  req_now : Z
}.

Inductive context : Type :=
| FormContext (initial : gmap string string)
| BoundFormContext (data : NoteFormData)
| DetailContext (object : Note)
| ListContext (object_list : list Note).

Inductive response : Type :=
| TemplateResponse (template : string) (ctx : context)
| HttpResponseRedirect (to : string)
| RedirectToLogin
| Http404
| HttpResponseNotAllowed.

(** What a view leaves behind: the response, the tables, the generator. *)
Definition outcome : Type := result (response * database * rng).

(** [NoteForm.is_valid] and the address [form_valid] redirects to are defined
    in [forms.py] and [mixins.py]. *)
Context (NoteForm_is_valid : NoteFormData -> bool).
Context (get_success_url : Note -> string).

(** A row read back as an instance: its [id] is the key it is stored under. *)
Definition load (z : Z) (row : Note) : Note := set_id (PkInt z) row.

(** [SingleObjectMixin.get_object]: the Note whose primary key is the [pk] of
    the URL; [None] stands for [Http404]. *)
Definition get_object (db : database) (req : request) : option Note :=
  load (req_pk req) <$> notes db !! req_pk req.

(** [note.user == request.user] *)
Definition is_user (u : Z) (ru : request_user) : bool :=
  match ru with
  | User v => bool_decide (u = v)
  | AnonymousUser => false
  end.

(** ** [NotesView] *)

Definition paginate_by : Z := 24.

(** [self.request.user.notes]: the reverse of [Note.user]
    ([related_name='notes']). *)
Definition user_notes (db : database) (u : Z) : list Note :=
  filter (fun n => note_user n = u)
         ((fun kn => load kn.1 kn.2) <$> map_to_list (notes db)).

(** The order of [order_by('-last_edited')]: later edits first. *)
Definition edited_after (a b : Note) : Prop :=
  note_last_edited b <= note_last_edited a.

Global Instance edited_after_dec a b : Decision (edited_after a b).
Proof. unfold edited_after. apply _. Defined.

(** [NotesView.get_queryset], lines 21-22. *)
Definition NotesView_get_queryset (db : database) (u : Z) : list Note :=
  merge_sort edited_after (user_notes db u).

(** [Paginator.num_pages] with no orphans and an empty first page allowed. *)
Definition num_pages (count : Z) : Z :=
  (Z.max 1 count + paginate_by - 1) / paginate_by.

(** [object_list[bottom:top]] *)
Definition slice {A : Type} (l : list A) (bottom top : Z) : list A :=
  take (Z.to_nat (top - bottom)) (drop (Z.to_nat bottom) l).

(** [Paginator.page(number)]; [None] stands for [EmptyPage]. *)
Definition Paginator_page {A : Type} (l : list A) (number : Z) : option (list A) :=
  let count := Z.of_nat (length l) in
  if number <? 1 then None
  else if (num_pages count <? number) && negb (number =? 1) then None
  else
    let bottom := (number - 1) * paginate_by in
    let top := bottom + paginate_by in
    let top := if count <=? top then count else top in
    Some (slice l bottom top).

(** [MultipleObjectMixin.paginate_queryset]; [None] stands for [Http404]. *)
Definition paginate_queryset {A : Type} (l : list A) (page : page_arg) : option (list A) :=
  match page with
  | PageAbsent => Paginator_page l 1
  | PageInt n => Paginator_page l n
  | PageLast => Paginator_page l (num_pages (Z.of_nat (length l)))
  | PageOther => None
  end.

(** [NotesView] behind [LoginRequiredMixin]: a [ListView] answers GET only. *)
Definition NotesView (db : database) (req : request) : response :=
  match req_user req with
  | AnonymousUser => RedirectToLogin
  | User u =>
      match req_method req with
      | POST _ => HttpResponseNotAllowed
      | GET =>
          match paginate_queryset (NotesView_get_queryset db u) (req_page req) with
          | Some object_list => TemplateResponse "notes.html" (ListContext object_list)
          | None => Http404
          end
      end
  end.

(** ** [ViewNoteView] *)

(** [ViewNoteView.get_template_names], lines 39-46. *)
Definition ViewNoteView_get_template_names (req : request) (object : Note) : string :=
  if is_user (note_user object) (req_user req)
  then "view_note.html"
  else "view_note_public.html".

(** Modelled from the spec: [NoteCreatorOrPublicMixin] of [notes/mixins.py],
    which is not among the sources.  "If the note is not public, only the
    owner can view it", "unauthorized access redirects", and the view counter
    "is incremented ... by a User viewing a Note via this view.  This is done
    in the mixin".  The guard is the one [CloneNoteView.dispatch] spells out;
    behind it a [DetailView] renders the object on GET. *)
Definition ViewNoteView (db : database) (req : request) : response * database :=
  match get_object db req with
  | None => (Http404, db)
  | Some note =>
      if negb (note_is_public note) && negb (is_user (note_user note) (req_user req))
      then (HttpResponseRedirect "notes", db)
      else
        match req_method req with
        | POST _ => (HttpResponseNotAllowed, db)
        | GET =>
            let seen := set_view_count (note_view_count note + 1) note in
            (TemplateResponse (ViewNoteView_get_template_names req seen)
                              (DetailContext seen),
             set_notes (<[req_pk req := seen]> (notes db)) db)
        end
  end.

(** The Note a response shows, if it shows one. *)
Definition shown (r : response) : option Note :=
  match r with
  | TemplateResponse _ (DetailContext object) => Some object
  | _ => None
  end.

(** ** [CloneNoteView] *)

(** Modelled from the spec: [Note.increment_clone_count], which is not in
    [models.py]: "cloning increments clone_count by 1".  The row of the
    instance gains one clone. *)
Definition increment_clone_count (db : database) (z : Z) : database :=
  set_notes (alter (fun n => set_clone_count (note_clone_count n + 1) n) z (notes db)) db.

(** [CloneNoteView.get_initial], lines 83-94; [super().get_initial()] is the
    empty dictionary of [FormMixin].  [None] stands for [Http404]. *)
Definition CloneNoteView_get_initial (db : database) (req : request)
  : option (gmap string string) :=
  note ← get_object db req;
  let initial : gmap string string := ∅ in
  let initial := <["title" := note_title note]> initial in
  let initial := <["content" := note_content note]> initial in
  let initial := <["tags" := tags_to_string (note_tags note)]> initial in
  Some initial.

(** The instance a valid [NoteForm] builds for user [u]. *)
Definition form_instance (u now : Z) (data : NoteFormData) : Note :=
  mk_Note PkNone u (form_title data) (form_content data) (form_is_public data)
          None now 0 0 (form_tags data).

(** Modelled from the spec: [form_valid] of [CreateNoteView], whose
    [NoteFormMixin] and [NoteForm] are not among the sources: "authenticated
    users create ... notes".  The posted Note is stored for the requesting
    user through [Note.save], and the view redirects. *)
Definition CreateNoteView_form_valid (fuel : nat) (g : rng) (db : database)
    (req : request) (u : Z) (data : NoteFormData) : outcome :=
  '(object, db', g') ← Note_save fuel g db (form_instance u (req_now req) data);
  Ok (HttpResponseRedirect (get_success_url object), db', g').

(** [CloneNoteView.form_valid], lines 96-102. *)
Definition CloneNoteView_form_valid (fuel : nat) (g : rng) (db : database)
    (req : request) (u : Z) (data : NoteFormData) : outcome :=
  match get_object db req with
  | None => Ok (Http404, db, g)
  | Some note =>
      let db1 := increment_clone_count db (req_pk req) in
      CreateNoteView_form_valid fuel g db1 req u data
  end.

(** [BaseCreateView.get]: the unbound form, filled from [get_initial]. *)
Definition CloneNoteView_get (db : database) (req : request) : response :=
  match CloneNoteView_get_initial db req with
  | None => Http404
  | Some initial => TemplateResponse "clone_note.html" (FormContext initial)
  end.

(** [BaseCreateView.post]: the form is built (which reads [get_initial]),
    then validated. *)
Definition CloneNoteView_post (fuel : nat) (g : rng) (db : database)
    (req : request) (u : Z) (data : NoteFormData) : outcome :=
  match CloneNoteView_get_initial db req with
  | None => Ok (Http404, db, g)
  | Some _ =>
      if NoteForm_is_valid data
      then CloneNoteView_form_valid fuel g db req u data
      else Ok (TemplateResponse "clone_note.html" (BoundFormContext data), db, g)
  end.

(** [super().dispatch] of [CloneNoteView]: [LoginRequiredMixin] of
    [CreateNoteView], then the handler of the method. *)
Definition CreateNoteView_dispatch (fuel : nat) (g : rng) (db : database)
    (req : request) : outcome :=
  match req_user req with
  | AnonymousUser => Ok (RedirectToLogin, db, g)
  | User u =>
      match req_method req with
      | GET => Ok (CloneNoteView_get db req, db, g)
      | POST data => CloneNoteView_post fuel g db req u data
      end
  end.

(** [CloneNoteView.dispatch], lines 71-81. *)
Definition CloneNoteView_dispatch (fuel : nat) (g : rng) (db : database)
    (req : request) : outcome :=
  match get_object db req with
  | None => Ok (Http404, db, g)
  | Some note =>
      if negb (note_is_public note) && negb (is_user (note_user note) (req_user req))
      then Ok (HttpResponseRedirect "notes", db, g)
      else CreateNoteView_dispatch fuel g db req
  end.

(** ** Vocabulary of the statements *)

(** The generator [n] draws later. *)
Definition advance (n : nat) (g : rng) : rng :=
  mk_rng (tape g) (n + cursor g)%nat.

(** The character [string.digits[d]]. *)
Definition digit_char (d : nat) : ascii :=
  match String.get d digits with Some c => c | None => "0"%char end.

(** A string made of decimal digits only. *)
Fixpoint all_digits (s : string) : bool :=
  match s with
  | EmptyString => true
  | String c s' => bool_decide (is_Some (digit_val c)) && all_digits s'
  end.

(** An id as [save] draws it: eight decimal digits. *)
Definition eight_digits (s : string) : Prop :=
  String.length s = 8%nat /\ all_digits s = true.

(** The id the loop draws at its [k]-th turn (counted from 0). *)
Definition candidate (g : rng) (k : nat) : string :=
  (random_digits 8 (advance (8 * k) g)).1.

(** The existence check of the loop answers no, respectively yes. *)
Definition id_free (db : database) (s : string) : Prop :=
  Note_objects_filter_id_exists db (PkStr s) = Ok false.

Definition id_taken (db : database) (s : string) : Prop :=
  Note_objects_filter_id_exists db (PkStr s) = Ok true.

(** The ids of the stored Notes. *)
Definition stored_ids (db : database) : gset Z := dom (notes db).

(** The number an id drawn by [save] is stored as. *)
Definition stored_as (s : string) (z : Z) : Prop := int s = Ok z.

(** Every stored Reference points at a stored Note. *)
Definition references_valid (db : database) : Prop :=
  forall k r, references db !! k = Some r -> is_Some (notes db !! ref_note r).

(** The stored search vectors agree with the stored titles and contents. *)
Definition vectors_in_sync (db : database) : Prop :=
  forall z row, notes db !! z = Some row ->
    note_document_vector row =
    Some (search_vector (note_title row) (note_content row)).

(** Conditions under which a call of [save] comes back: the owner is a
    stored user, and either the id is set and converts to a number, or the
    generator draws a free id before the fuel is spent. *)
Definition save_comes_back (fuel : nat) (g : rng) (db : database) (self : Note) : Prop :=
  note_user self ∈ users db /\
  (truthy (note_id self) = true /\ returns (get_prep_value (note_id self)) \/
   truthy (note_id self) = false /\
   exists k, (k < fuel)%nat /\ id_free db (candidate g k)).

(** The requesting user may clone the Note: it is public or theirs. *)
Definition may_clone (row : Note) (ru : request_user) : Prop :=
  note_is_public row = true \/ ru = User (note_user row).

(** The tables after a clone that went through: the source row has one more
    clone, and one row is new, under an id no Note had. *)
Definition cloned (db db' : database) (pk0 u : Z) (data : NoteFormData) : Prop :=
  exists z new,
    (z ∉ stored_ids db) /\
    notes db' =
      <[z := new]> (alter (fun n => set_clone_count (note_clone_count n + 1) n)
                          pk0 (notes db)) /\
    note_user new = u /\
    note_title new = form_title data /\
    note_content new = form_content data /\
    note_clone_count new = 0 /\
    users db' = users db /\
    references db' = references db.

(** A clone request that goes through: posted by an authenticated user who
    may clone the stored source, with a form that validates. *)
Definition clone_request (db : database) (req : request) (row : Note)
    (u : Z) (data : NoteFormData) : Prop :=
  notes db !! req_pk req = Some row /\
  req_user req = User u /\
  req_method req = POST data /\
  NoteForm_is_valid data = true /\
  may_clone row (req_user req).

(** [Reference.delete] *)
Definition Reference_delete (k : Z) (db : database) : database :=
  mk_database (users db) (notes db) (delete k (references db)).

(** A new user row. *)
Definition User_create (u : Z) (db : database) : database :=
  mk_database ({[u]} ∪ users db) (notes db) (references db).

(** One change of the tables, by a model method or by a view. *)
Inductive db_step : database -> database -> Prop :=
| step_Note_save fuel g db self self' db' g' :
    Note_save fuel g db self = Ok (self', db', g') -> db_step db db'
| step_Note_delete z db :
    db_step db (Note_delete z db)
| step_Reference_save db key r k db' :
    Reference_save db key r = Ok (k, db') -> db_step db db'
| step_Reference_delete k db :
    db_step db (Reference_delete k db)
| step_User_create u db :
    db_step db (User_create u db)
| step_User_delete u db :
    db_step db (User_delete u db)
| step_ViewNoteView db req :
    db_step db (ViewNoteView db req).2
| step_CloneNoteView fuel g db req r db' g' :
    CloneNoteView_dispatch fuel g db req = Ok (r, db', g') -> db_step db db'.

(** Page [i], counted from 0, of a list cut into runs of 24. *)
Definition chunk {A : Type} (l : list A) (i : nat) : list A :=
  take 24 (drop (24 * i) l).

(** A Note as stored for user [u] in the tables. *)
Definition note_of (db : database) (u : Z) (n : Note) : Prop :=
  exists z row, notes db !! z = Some row /\ note_user row = u /\ n = load z row.

(** The [n]-digit decimal numeral of [z], zero-padded. *)
Fixpoint digit_string (n : nat) (z : Z) : string :=
  match n with
  | O => EmptyString
  | S n' =>
      String (digit_char (Z.to_nat (z / 10 ^ Z.of_nat n')))
             (digit_string n' (z mod 10 ^ Z.of_nat n'))
  end.

(** The raw draw that yields the digit [c]. *)
Definition digit_of (c : ascii) : nat :=
  match digit_val c with Some d => Z.to_nat d | None => O end.

(** A tape that draws the strings of [run], one per turn of the loop. *)
Definition tape_of_run (run : list string) : nat -> nat :=
  fun i =>
    match run !! (i / 8)%nat with
    | Some s => match String.get (i mod 8) s with Some c => digit_of c | None => O end
    | None => O
    end.

Definition rng_of_run (run : list string) : rng := mk_rng (tape_of_run run) 0.

(** All eight-digit ids, in the order of the numbers they are stored as. *)
Definition eight_digit_ids : list string := digit_string 8 <$> seqZ 0 (10 ^ 8).

(** All runs of [n] turns of the loop: one eight-digit id drawn per turn. *)
Fixpoint runs (n : nat) : list (list string) :=
  match n with
  | O => [[]]
  | S n' => s ← eight_digit_ids; cons s <$> runs n'
  end.

(** The existence check as a boolean. *)
Definition taken (db : database) (s : string) : bool :=
  match Note_objects_filter_id_exists db (PkStr s) with
  | Ok true => true
  | _ => false
  end.

(** After [n] turns on the tape of [run] the loop has not come back. *)
Definition still_looping (db : database) (n : nat) (run : list string) : bool :=
  match generate_id n db (rng_of_run run) with
  | OutOfFuel => true
  | _ => false
  end.

(** The number of eight-digit ids that are taken. *)
Definition taken_count (db : database) : nat :=
  length (filter (fun s => taken db s = true) eight_digit_ids).

(** ** [users/views.py] *)

(** The method of a request to a [FormView], with what a POST carries. *)
Inductive form_method (D : Type) : Type :=
| FormGET
| FormPOST (data : D).

Global Arguments FormGET {D}.
Global Arguments FormPOST {D} data.

(** A response of the user views: the rendered form, a redirect to an
    address, or the redirect to the login page of [LoginRequiredMixin]. *)
Inductive user_response : Type :=
| FormResponse (template : string)
| UserRedirect (to : string)
| UserRedirectToLogin.

(** [request.user.is_authenticated] *)
Definition is_authenticated (ru : request_user) : bool :=
  match ru with
  | User _ => true
  | AnonymousUser => false
  end.

(** [SignUpForm], [SettingsForm] and the URL configuration are defined
    outside the sources: what the forms post, whether they validate, what
    [SignUpForm.save] stores and which user it returns, and the address a
    URL name resolves to ([reverse_lazy(name)]; [redirect(name)] resolves a
    name the same way) are given with the views. *)
Class UserForms : Type := {
  SignUpData : Type;
  SettingsData : Type;
  SignUpForm_is_valid : SignUpData -> bool;
  SignUpForm_save : SignUpData -> database -> Z * database;
  SettingsForm_is_valid : SettingsData -> bool;
  reverse_lazy : string -> string
}.

(** [SignUp.form_valid], lines 20-23: the form stores the user, [login]
    binds that user to the session, [FormView.form_valid] redirects to
    [success_url]. *)
Definition SignUp_form_valid `{UserForms} (db : database) (data : SignUpData)
  : user_response * database * request_user :=
  let (user, db') := SignUpForm_save data db in
  (UserRedirect (reverse_lazy "checkout"), db', User user).

(** [SignUp.dispatch], lines 15-18, in front of [FormView]'s handlers; the
    session's user goes in and comes out. *)
Definition SignUp_dispatch `{UserForms} (db : database) (session : request_user)
    (method : form_method SignUpData) : user_response * database * request_user :=
  if is_authenticated session
  then (UserRedirect (reverse_lazy "revision"), db, session)
  else
    match method with
    | FormGET => (FormResponse "signup.html", db, session)
    | FormPOST data =>
        if SignUpForm_is_valid data
        then SignUp_form_valid db data
        else (FormResponse "signup.html", db, session)
    end.

(** Python's [str] of a bound method, from its qualified name and the
    [repr] of the object it is bound to. *)
Definition bound_method_str (qualname self_repr : string) : string :=
  "<bound method " +:+ qualname +:+ " of " +:+ self_repr +:+ ">".

(** What the body of [Settings.success_url], lines 29-30, returns when it
    is called. *)
Definition Settings_success_url `{UserForms} : string :=
  reverse_lazy "account_settings" +:+ "?changed=true".

(** [FormMixin.get_success_url] on [Settings]: it is [str(self.success_url)],
    and lines 29-30 make [success_url] a method, so the string is that of
    the bound method, which nothing calls.  [self_repr] is the [repr] of the
    view object. *)
Definition Settings_get_success_url (self_repr : string) : string :=
  bound_method_str "Settings.success_url" self_repr.

(** [Settings], lines 25-30: [LoginRequiredMixin] in front of [FormView]'s
    handlers, whose [form_valid] redirects to [get_success_url()]. *)
Definition Settings_dispatch `{UserForms} (self_repr : string)
    (session : request_user)
    (method : form_method SettingsData) : user_response :=
  if is_authenticated session
  then
    match method with
    | FormGET => FormResponse "settings.html"
    | FormPOST data =>
        if SettingsForm_is_valid data
        then UserRedirect (Settings_get_success_url self_repr)
        else FormResponse "settings.html"
    end
  else UserRedirectToLogin.

(** The last character of a string. *)
Fixpoint last_char (s : string) : option ascii :=
  match s with
  | EmptyString => None
  | String c s' => match last_char s' with Some c' => Some c' | None => Some c end
  end.

(** ** A small instance

    Vectors are the text they index, tags are joined by commas, a form is
    valid when it has a title, and a created Note redirects to the list. *)

Definition sample_search_vector (title content : string) : string :=
  title +:+ " " +:+ content.

Definition sample_tags_to_string (tags : list string) : string :=
  String.concat ", " tags.

Definition sample_NoteForm_is_valid (data : NoteFormData) : bool :=
  negb (String.eqb (form_title data) "").

Definition sample_get_success_url (object : Note) : string := "notes".

(** Draws 0, 1, 2, ...: the first id drawn is "01234567". *)
Definition sample_counting : rng := mk_rng (fun i => i) 0.

Definition sample_lecture : Note :=
  mk_Note (PkInt 12) 1 "Graphs" "BFS and DFS" false None 100 0 3 ["cs"; "graphs"].

(** A Note stored under the id 0, as read back from the table. *)
Definition sample_recipe : Note :=
  mk_Note (PkInt 0) 2 "Bread" "Flour, water, salt" true None 200 5 0 [].

Definition sample_draft : Note :=
  mk_Note PkNone 1 "Trees" "AVL" true None 300 0 0 [].

Definition sample_link : Reference :=
  mk_Reference 12 "https://example.org/bfs" "breadth first".

Definition sample_db : database :=
  mk_database {[1; 2]} {[12 := sample_lecture; 0 := sample_recipe]}
              {[1 := sample_link]}.

Definition sample_posted : NoteFormData :=
  mk_NoteFormData "Bread II" "Rye" true [].

(** User 1 posts a clone of the public recipe of user 2. *)
Definition sample_clone_post : request :=
  mk_request (User 1) (POST sample_posted) 0 PageAbsent 400.

(** User 1 opens the clone form for the recipe. *)
Definition sample_clone_get : request :=
  mk_request (User 1) GET 0 PageAbsent 400.

(** User 2 tries to clone the private lecture of user 1. *)
Definition sample_clone_refused : request :=
  mk_request (User 2) GET 12 PageAbsent 400.

(** User 2 asks for the private lecture of user 1. *)
Definition sample_peek : request := mk_request (User 2) GET 12 PageAbsent 400.

(** User 1 lists their notes. *)
Definition sample_listing : request :=
  mk_request (User 1) GET 0 (PageInt 1) 400.

(** The recipe after [save]: the drawn id on the instance, a second row in
    the table. *)
Definition sample_resaved : Note := set_id (PkStr "01234567") sample_recipe.

Definition sample_db_resaved : database :=
  set_notes (<[1234567 := reindex (set_id (PkInt 1234567) sample_resaved)]>
               (notes sample_db)) sample_db.

(** The draft after [save], and the tables with it. *)
Definition sample_saved_draft : Note := set_id (PkStr "01234567") sample_draft.

Definition sample_db_saved : database :=
  set_notes (<[1234567 := reindex (set_id (PkInt 1234567) sample_saved_draft)]>
               (notes sample_db)) sample_db.

(** The tables after the lecture, stored under 12, is saved again. *)
Definition sample_db_lecture_saved : database :=
  set_notes (<[12 := reindex sample_lecture]> (notes sample_db)) sample_db.

(** The sample tables with the first id the counting generator draws taken. *)
Definition sample_squatter : Note :=
  mk_Note (PkInt 1234567) 2 "Taken" "" true None 50 0 0 [].

Definition sample_db_crowded : database :=
  mk_database {[1; 2]}
              {[12 := sample_lecture; 0 := sample_recipe; 1234567 := sample_squatter]}
              {[1 := sample_link]}.

(** User 3, who has no Notes, lists them; user 1 asks for page 5. *)
Definition sample_listing_empty : request :=
  mk_request (User 3) GET 0 PageLast 400.

Definition sample_listing_beyond : request :=
  mk_request (User 1) GET 0 (PageInt 5) 400.

(** User 1 asks for the last page of their Notes. *)
Definition sample_listing_last : request :=
  mk_request (User 1) GET 0 PageLast 400.

(** The anonymous user tries to clone the private lecture. *)
Definition sample_clone_anonymous : request :=
  mk_request AnonymousUser GET 12 PageAbsent 400.

(** The Note [sample_clone_post] creates, and the tables after it. *)
Definition sample_cloned_note : Note :=
  set_id (PkStr "01234567") (form_instance 1 400 sample_posted).

Definition sample_db_cloned : database :=
  set_notes (<[1234567 := reindex (set_id (PkInt 1234567) sample_cloned_note)]>
               (notes (increment_clone_count sample_db 0)))
            (increment_clone_count sample_db 0).

(** User forms for the sample: a sign-up posts a name, valid when not empty,
    and stores the next free user key; URL names resolve to themselves
    between slashes. *)
Definition sample_UserForms : UserForms := {|
  SignUpData := string;
  SettingsData := string;
  SignUpForm_is_valid := fun name => negb (String.eqb name "");
  SignUpForm_save := fun name db =>
    let u := fresh (users db) in
    (u, mk_database ({[u]} ∪ users db) (notes db) (references db));
  SettingsForm_is_valid := fun _ => true;
  reverse_lazy := fun name => "/" +:+ name +:+ "/"
|}.

(** ** The drawn digits *)

Lemma digit_char_val (d : nat) :
  (d < 10)%nat -> digit_val (digit_char d) = Some (Z.of_nat d).
Proof.
  intros Hd.
  do 10 (destruct d as [|d]; [reflexivity|]). lia.
Qed.

Lemma choice_digits (g : rng) :
  choice digits g = (digit_char (tape g (cursor g) mod 10), advance 1 g).
Proof. reflexivity. Qed.

Lemma advance_advance (m n : nat) (g : rng) :
  advance m (advance n g) = advance (m + n) g.
Proof. unfold advance; simpl. f_equal. lia. Qed.

Lemma advance_0 (g : rng) : advance 0 g = g.
Proof. by destruct g. Qed.

Lemma random_digits_S (n : nat) (g : rng) :
  random_digits (S n) g =
  (String (digit_char (tape g (cursor g) mod 10)) (random_digits n (advance 1 g)).1,
   (random_digits n (advance 1 g)).2).
Proof.
  cbn [random_digits]. rewrite choice_digits.
  by destruct (random_digits n (advance 1 g)).
Qed.

Lemma random_digits_rng (n : nat) (g : rng) :
  (random_digits n g).2 = advance n g.
Proof.
  revert g; induction n as [|n IH]; intros g.
  - by rewrite advance_0.
  - rewrite random_digits_S; cbn [snd].
    rewrite IH, advance_advance. f_equal. lia.
Qed.

Lemma random_digits_length (n : nat) (g : rng) :
  String.length (random_digits n g).1 = n.
Proof.
  revert g; induction n as [|n IH]; intros g; [done|].
  rewrite random_digits_S; cbn [fst String.length]. by rewrite IH.
Qed.

Lemma random_digits_all_digits (n : nat) (g : rng) :
  all_digits (random_digits n g).1 = true.
Proof.
  revert g; induction n as [|n IH]; intros g; [done|].
  rewrite random_digits_S; cbn [fst all_digits].
  rewrite IH, andb_true_r. apply bool_decide_eq_true.
  rewrite digit_char_val; [by eexists|].
  apply Nat.mod_upper_bound. lia.
Qed.

Lemma random_digits_eight (g : rng) : eight_digits (random_digits 8 g).1.
Proof. split; [apply random_digits_length | apply random_digits_all_digits]. Qed.

Lemma candidate_eight (g : rng) (k : nat) : eight_digits (candidate g k).
Proof. apply random_digits_eight. Qed.

Lemma random_digits_candidate (g : rng) :
  random_digits 8 g = (candidate g 0, advance 8 g).
Proof.
  unfold candidate. rewrite Nat.mul_0_r, advance_0.
  rewrite <- (random_digits_rng 8 g). by destruct (random_digits 8 g).
Qed.

Lemma candidate_advance (g : rng) (k : nat) :
  candidate (advance 8 g) k = candidate g (S k).
Proof. unfold candidate. rewrite advance_advance. do 3 f_equal. lia. Qed.

(** ** [int] on digit strings *)

Lemma int_acc_bounds (s : string) (acc : Z) :
  all_digits s = true -> 0 <= acc ->
  exists z, int_acc acc s = Some z /\
            acc * 10 ^ Z.of_nat (String.length s) <= z
            < (acc + 1) * 10 ^ Z.of_nat (String.length s).
Proof.
  revert acc; induction s as [|c s IH]; intros acc Hs Hacc; simpl in *.
  - exists acc. split; [done|]. lia.
  - apply andb_true_iff in Hs as [Hc Hs].
    apply bool_decide_eq_true in Hc as [d Hd]. rewrite Hd.
    assert (0 <= d <= 9) as Hd9.
    { unfold digit_val in Hd.
      destruct (_ && _) eqn:E; [|done]. inversion Hd; subst.
      apply andb_true_iff in E as [?%Z.leb_le ?%Z.leb_le]. lia. }
    destruct (IH (acc * 10 + d) Hs ltac:(lia)) as (z & Hz & Hlo & Hhi).
    exists z. split; [done|].
    rewrite Nat2Z.inj_succ, Z.pow_succ_r by lia.
    set (p := 10 ^ Z.of_nat (String.length s)) in *.
    assert (0 < p) by (apply Z.pow_pos_nonneg; lia).
    nia.
Qed.

Lemma int_eight_digits (s : string) :
  eight_digits s -> exists z, int s = Ok z /\ 0 <= z < 10 ^ 8.
Proof.
  intros [Hlen Hs].
  destruct (int_acc_bounds s 0 Hs ltac:(lia)) as (z & Hz & Hb).
  rewrite Hlen in Hb.
  exists z. split; [|simpl in Hb; lia].
  unfold int. destruct s; [done|]. by rewrite Hz.
Qed.

(** ** The existence check and the retry loop *)

Lemma id_free_iff (db : database) (s : string) :
  id_free db s <-> exists z, stored_as s z /\ z ∉ stored_ids db.
Proof.
  unfold id_free, stored_as, stored_ids, Note_objects_filter_id_exists; simpl.
  split.
  - destruct (int s) as [z| |] eqn:E; simpl; [|done..].
    intros [= H]. exists z. split; [done|].
    apply bool_decide_eq_false in H. by rewrite elem_of_dom.
  - intros (z & -> & Hz); simpl. f_equal.
    apply bool_decide_eq_false. by rewrite <- elem_of_dom.
Qed.

Lemma id_taken_iff (db : database) (s : string) :
  id_taken db s <-> exists z, stored_as s z /\ z ∈ stored_ids db.
Proof.
  unfold id_taken, stored_as, stored_ids, Note_objects_filter_id_exists; simpl.
  split.
  - destruct (int s) as [z| |] eqn:E; simpl; [|done..].
    intros [= H]. exists z. split; [done|].
    apply bool_decide_eq_true in H. by rewrite elem_of_dom.
  - intros (z & -> & Hz); simpl. f_equal.
    apply bool_decide_eq_true. by rewrite <- elem_of_dom.
Qed.

Lemma eight_digits_checked (db : database) (s : string) :
  eight_digits s -> {id_free db s} + {id_taken db s}.
Proof.
  intros Hs. unfold id_free, id_taken, Note_objects_filter_id_exists; simpl.
  destruct (int s) as [z| |] eqn:E; simpl.
  - destruct (bool_decide (is_Some (notes db !! z))); [by right | by left].
  - exfalso. destruct (int_eight_digits s Hs) as (? & ? & _); congruence.
  - exfalso. destruct (int_eight_digits s Hs) as (? & ? & _); congruence.
Qed.

Lemma generate_id_S (fuel : nat) (db : database) (g : rng) :
  generate_id (S fuel) db g =
  (taken ← Note_objects_filter_id_exists db (PkStr (candidate g 0));
   if negb taken then Ok (candidate g 0, advance 8 g)
   else generate_id fuel db (advance 8 g)).
Proof. cbn [generate_id]. by rewrite random_digits_candidate. Qed.

(** A turn that draws a free id ends the loop at that turn or before. *)
Lemma generate_id_free (db : database) (k : nat) :
  forall g fuel, (k < fuel)%nat -> id_free db (candidate g k) ->
  exists j, (j <= k)%nat /\ id_free db (candidate g j) /\
            generate_id fuel db g = Ok (candidate g j, advance (8 * S j) g).
Proof.
  induction k as [|k IH]; intros g fuel Hk Hfree;
    (destruct fuel as [|fuel]; [lia|]); rewrite generate_id_S.
  - exists 0%nat. split; [lia|]. split; [done|]. by rewrite Hfree.
  - destruct (eight_digits_checked db (candidate g 0) (candidate_eight g 0))
      as [H0|H0]; rewrite H0; simpl.
    + exists 0%nat. split; [lia|]. by split.
    + rewrite <- candidate_advance in Hfree.
      destruct (IH (advance 8 g) fuel ltac:(lia) Hfree) as (j & Hj & Hf & ->).
      exists (S j). rewrite <- candidate_advance. split; [lia|]. split; [done|].
      rewrite advance_advance. do 3 f_equal. lia.
Qed.

(** The loop stops only on a free id that it drew. *)
Lemma generate_id_Ok (db : database) (fuel : nat) :
  forall g s g', generate_id fuel db g = Ok (s, g') ->
  exists j, (j < fuel)%nat /\ s = candidate g j /\ g' = advance (8 * S j) g /\
            id_free db s.
Proof.
  induction fuel as [|fuel IH]; intros g s g'; [done|].
  rewrite generate_id_S.
  destruct (eight_digits_checked db (candidate g 0) (candidate_eight g 0))
    as [H0|H0]; rewrite H0; simpl.
  - intros [= <- <-]. exists 0%nat. split; [lia|]. by repeat split.
  - intros (j & Hj & -> & -> & Hf)%IH.
    exists (S j). rewrite candidate_advance in *. split; [lia|].
    repeat split; [|done]. rewrite advance_advance. f_equal. lia.
Qed.

Lemma generate_id_no_raise (db : database) (fuel : nat) :
  forall g e, generate_id fuel db g <> Raise e.
Proof.
  induction fuel as [|fuel IH]; intros g e; [done|].
  rewrite generate_id_S.
  destruct (eight_digits_checked db (candidate g 0) (candidate_eight g 0))
    as [H0|H0]; rewrite H0; simpl; [done|apply IH].
Qed.

(** With every eight-digit id taken the loop never stops. *)
Lemma generate_id_stuck (db : database) :
  (forall s, eight_digits s -> id_taken db s) ->
  forall fuel g, generate_id fuel db g = OutOfFuel.
Proof.
  intros Hall. induction fuel as [|fuel IH]; intros g; [done|].
  rewrite generate_id_S, (Hall _ (candidate_eight g 0)); simpl. apply IH.
Qed.

(** ** [Note.save] *)

Lemma Note_save_unset (fuel : nat) (g : rng) (db : database) (self : Note) :
  truthy (note_id self) = false ->
  Note_save fuel g db self =
  ('(id, g') ← generate_id fuel db g;
   db' ← Model_save db (set_id (PkStr id) self);
   Ok (set_id (PkStr id) self, db', g')).
Proof.
  intros H. unfold Note_save. rewrite H; simpl.
  by destruct (generate_id fuel db g) as [[id g']| |].
Qed.

Lemma Note_save_set (fuel : nat) (g : rng) (db : database) (self : Note) :
  truthy (note_id self) = true ->
  Note_save fuel g db self = (db' ← Model_save db self; Ok (self, db', g)).
Proof. intros H. unfold Note_save. by rewrite H. Qed.

Lemma Model_save_Ok (db db' : database) (self : Note) :
  Model_save db self = Ok db' ->
  exists z, get_prep_value (note_id self) = Ok (Some z) /\
            note_user self ∈ users db /\
            db' = set_notes (<[z := reindex (set_id (PkInt z) self)]> (notes db)) db.
Proof.
  unfold Model_save.
  destruct (get_prep_value (note_id self)) as [[z|]| |]; simpl; [|done..].
  case_bool_decide; [|done]. intros [= <-]. by exists z.
Qed.

Lemma Model_save_stored (db : database) (self : Note) (z : Z) :
  get_prep_value (note_id self) = Ok (Some z) ->
  note_user self ∈ users db ->
  Model_save db self =
  Ok (set_notes (<[z := reindex (set_id (PkInt z) self)]> (notes db)) db).
Proof.
  intros Hz Hu. unfold Model_save. rewrite Hz; simpl.
  by rewrite bool_decide_eq_true_2.
Qed.

Lemma truthy_prepared (p : pk) :
  truthy p = true -> returns (get_prep_value p) ->
  exists z, get_prep_value p = Ok (Some z).
Proof.
  destruct p as [|z|s]; simpl; [done|by eexists|].
  intros _ [[z|] H]; [by eexists|].
  destruct (int s); simpl in H; congruence.
Qed.

Lemma Note_save_Ok (fuel : nat) (g : rng) (db : database) (self self' : Note)
    (db' : database) (g' : rng) :
  Note_save fuel g db self = Ok (self', db', g') ->
  exists z, get_prep_value (note_id self') = Ok (Some z) /\
            db' = set_notes (<[z := reindex (set_id (PkInt z) self')]> (notes db)) db /\
            (truthy (note_id self) = true /\ self' = self /\ g' = g \/
             truthy (note_id self) = false /\
             exists s, self' = set_id (PkStr s) self /\ eight_digits s /\
                       id_free db s /\ generate_id fuel db g = Ok (s, g')).
Proof.
  destruct (truthy (note_id self)) eqn:Ht.
  - rewrite Note_save_set by done.
    destruct (Model_save db self) as [d| |] eqn:E; simpl; [|done..].
    intros [= <- <- <-].
    apply Model_save_Ok in E as (z & Hz & _ & ->).
    exists z. split; [done|]. split; [done|]. by left.
  - rewrite Note_save_unset by done.
    destruct (generate_id fuel db g) as [[s g1]| |] eqn:G; simpl; [|done..].
    destruct (Model_save db (set_id (PkStr s) self)) as [d| |] eqn:E;
      simpl; [|done..].
    intros [= <- <- <-].
    apply Model_save_Ok in E as (z & Hz & _ & ->).
    exists z. split; [done|]. split; [done|]. right. split; [done|].
    exists s. split; [done|].
    pose proof (generate_id_Ok _ _ _ _ _ G) as (j & _ & Hs & _ & Hfree).
    split; [|by split]. rewrite Hs. apply candidate_eight.
Qed.

Lemma Note_save_returns (fuel : nat) (g : rng) (db : database) (self : Note) :
  save_comes_back fuel g db self -> returns (Note_save fuel g db self).
Proof.
  intros [Hu [[Ht Hp]|[Ht (k & Hk & Hfree)]]].
  - rewrite Note_save_set by done.
    destruct (truthy_prepared _ Ht Hp) as [z Hz].
    rewrite (Model_save_stored _ _ z) by done. by eexists.
  - rewrite Note_save_unset by done.
    destruct (generate_id_free db k g fuel Hk Hfree) as (j & _ & Hf & ->); simpl.
    apply id_free_iff in Hf as (z & Hz & _).
    rewrite (Model_save_stored _ _ z); [by eexists| |done].
    change (get_prep_value (PkStr (candidate g j)) = Ok (Some z)).
    unfold get_prep_value, stored_as in *. by rewrite Hz.
Qed.

(** On the Python side [save] never touches [document_vector]: the instance
    leaves the call with the attribute it came with. *)
Lemma Note_save_leaves_vector_attribute (fuel : nat) (g : rng) (db : database)
    (self self' : Note) (db' : database) (g' : rng) :
  Note_save fuel g db self = Ok (self', db', g') ->
  note_document_vector self' = note_document_vector self.
Proof.
  intros (z & _ & _ & [(_ & -> & _)|(_ & s & -> & _)])%Note_save_Ok; done.
Qed.

(** C1. After a call of [save] that returns, the row stored for the Note
    holds the Note's title and content and the search vector computed from
    exactly these, and if the vectors of all rows agreed with their rows
    before the call they still do; the call does return when the owner is a
    stored user and the id is set, or the generator draws a free id before
    the fuel is spent. *)
Theorem save_syncs_document_vector (fuel : nat) (g : rng) (db : database) (self : Note) :
  (forall self' db' g',
      Note_save fuel g db self = Ok (self', db', g') ->
      (exists z row,
          get_prep_value (note_id self') = Ok (Some z) /\
          notes db' !! z = Some row /\
          note_title row = note_title self /\
          note_content row = note_content self /\
          note_document_vector row =
          Some (search_vector (note_title self) (note_content self))) /\
      (vectors_in_sync db -> vectors_in_sync db')) /\
  (save_comes_back fuel g db self -> returns (Note_save fuel g db self)).
Proof.
  split; [|apply Note_save_returns].
  intros self' db' g' (z & Hz & -> & Hcase)%Note_save_Ok.
  assert (note_title self' = note_title self /\
          note_content self' = note_content self) as [Ht Hc].
  { destruct Hcase as [(_ & -> & _)|(_ & s & -> & _)]; by split. }
  split.
  - exists z, (reindex (set_id (PkInt z) self')).
    split; [done|]. split; [apply lookup_insert_eq|].
    simpl. by rewrite Ht, Hc.
  - intros Hsync z' row; simpl.
    rewrite lookup_insert. case_decide; [|apply Hsync].
    by intros [= <-].
Qed.

(** C2. Saving a Note whose id is unset, for a stored owner and with a
    generator that draws a free id before the fuel is spent, returns with
    the Note's id set to one string of eight decimal digits; the number it
    is stored as lies below 10^8, is the id of no Note stored before, and is
    the one id the table gains. *)
Theorem save_assigns_one_fresh_id (fuel : nat) (g : rng) (db : database)
    (self : Note) (k : nat) :
  note_id self = PkNone ->
  note_user self ∈ users db ->
  (k < fuel)%nat ->
  id_free db (candidate g k) ->
  exists s z self' db' g',
    Note_save fuel g db self = Ok (self', db', g') /\
    note_id self' = PkStr s /\
    eight_digits s /\
    stored_as s z /\
    (0 <= z < 10 ^ 8) /\
    (z ∉ stored_ids db) /\
    stored_ids db' = {[z]} ∪ stored_ids db.
Proof.
  intros Hid Hu Hk Hfree.
  assert (truthy (note_id self) = false) as Ht by (by rewrite Hid).
  destruct (Note_save_returns fuel g db self) as [[[self' db'] g'] Hsave].
  { split; [done|]. right. split; [done|]. by exists k. }
  pose proof (Note_save_Ok _ _ _ _ _ _ _ Hsave) as (z & Hz & Hdb & Hcase).
  destruct Hcase as [(Ht' & _)|(_ & s & -> & Hs & Hf & _)]; [congruence|].
  exists s, z, (set_id (PkStr s) self), db', g'.
  split; [done|]. split; [done|]. split; [done|].
  apply id_free_iff in Hf as (z' & Hz' & Hnew).
  assert (z' = z) as ->.
  { unfold stored_as in Hz'. simpl in Hz. unfold get_prep_value in Hz.
    cbn [set_id note_id] in Hz. rewrite Hz' in Hz. simpl in Hz. congruence. }
  split; [done|].
  split. { destruct (int_eight_digits s Hs) as (z1 & Hz1 & Hb).
           unfold stored_as in Hz'. congruence. }
  split; [done|].
  subst db'. unfold stored_ids; simpl. apply dom_insert_L.
Qed.

(** A Note whose id counts as set keeps it through [save]. *)
Lemma Note_save_keeps_set_id (fuel : nat) (g : rng) (db : database)
    (self self' : Note) (db' : database) (g' : rng) :
  truthy (note_id self) = true ->
  Note_save fuel g db self = Ok (self', db', g') ->
  self' = self.
Proof.
  intros Ht (z & _ & _ & [(_ & -> & _)|(Hf & _)])%Note_save_Ok; [done|congruence].
Qed.

(** C3, at the id 0.  A Note stored under the id 0 (the number the drawn
    string "00000000" is stored as) and read back does not keep its id
    through [save]: the test [not self.id] takes 0 for unset, and the Note
    leaves the call with a freshly drawn eight-digit string as id, stored as
    a second row while the row under 0 stays. *)
Theorem save_replaces_id_zero (fuel : nat) (g : rng) (db : database)
    (self self' : Note) (db' : database) (g' : rng) :
  note_id self = PkInt 0 ->
  is_Some (notes db !! 0) ->
  Note_save fuel g db self = Ok (self', db', g') ->
  note_id self' <> note_id self /\
  exists s z, note_id self' = PkStr s /\ eight_digits s /\ stored_as s z /\
              z <> 0 /\ is_Some (notes db' !! z) /\
              notes db' !! 0 = notes db !! 0.
Proof.
  intros Hid H0 (z & Hz & -> & Hcase)%Note_save_Ok.
  destruct Hcase as [(Ht & _)|(_ & s & -> & Hs & Hf & _)].
  { by rewrite Hid in Ht. }
  split. { rewrite Hid. done. }
  apply id_free_iff in Hf as (z' & Hz' & Hnew).
  assert (z' = z) as ->.
  { unfold stored_as in Hz'. unfold get_prep_value in Hz.
    cbn [set_id note_id] in Hz. rewrite Hz' in Hz. simpl in Hz. congruence. }
  assert (z <> 0) as Hne.
  { intros ->. apply Hnew. by apply elem_of_dom. }
  exists s, z. split; [done|]. split; [done|]. split; [done|]. split; [done|].
  simpl. split.
  - rewrite lookup_insert_eq. by eexists.
  - by rewrite lookup_insert_ne.
Qed.

(** ** The views *)

Lemma is_user_true (u : Z) (ru : request_user) :
  is_user u ru = true <-> ru = User u.
Proof.
  destruct ru as [|v]; simpl; [done|].
  rewrite bool_decide_eq_true. split; [by intros ->|by intros [= ->]].
Qed.

Lemma guard_false (row : Note) (ru : request_user) :
  negb (note_is_public row) && negb (is_user (note_user row) ru) = false
  <-> may_clone row ru.
Proof.
  unfold may_clone. rewrite <- is_user_true.
  destruct (note_is_public row), (is_user (note_user row) ru); simpl; intuition.
Qed.

Lemma get_object_stored (db : database) (req : request) (row : Note) :
  notes db !! req_pk req = Some row ->
  get_object db req = Some (load (req_pk req) row).
Proof. intros H. unfold get_object. by rewrite H. Qed.

(** C4. A private Note is not shown to an authenticated user who is not its
    owner: the note view answers with the redirect to the notes list, shows
    no Note and leaves the tables as they were. *)
Theorem private_note_hidden_from_others (db : database) (req : request)
    (u : Z) (row : Note) :
  notes db !! req_pk req = Some row ->
  note_is_public row = false ->
  req_user req = User u ->
  u <> note_user row ->
  ViewNoteView db req = (HttpResponseRedirect "notes", db) /\
  shown (ViewNoteView db req).1 = None.
Proof.
  intros Hrow Hpriv Hu Hne.
  assert (ViewNoteView db req = (HttpResponseRedirect "notes", db)) as ->; [|done].
  unfold ViewNoteView. rewrite (get_object_stored _ _ _ Hrow); simpl.
  rewrite Hpriv, Hu; simpl. by rewrite bool_decide_eq_false_2.
Qed.

Lemma cursor_advance (n : nat) (g : rng) : cursor (advance n g) = (n + cursor g)%nat.
Proof. done. Qed.

Lemma form_valid_moves_generator (fuel : nat) (g : rng) (db : database)
    (req : request) (u : Z) (data : NoteFormData) (r : response)
    (db' : database) (g' : rng) :
  CreateNoteView_form_valid fuel g db req u data = Ok (r, db', g') -> g' <> g.
Proof.
  unfold CreateNoteView_form_valid.
  destruct (Note_save _ _ _ _) as [[[o d] g1]| |] eqn:E; simpl; [|done..].
  intros [= _ _ <-].
  apply Note_save_Ok in E as (z & _ & _ & [(Ht & _)|(_ & s & _ & _ & _ & G)]); [done|].
  apply generate_id_Ok in G as (j & _ & _ & -> & _).
  intros Heq. apply (f_equal cursor) in Heq. rewrite cursor_advance in Heq. lia.
Qed.

(** What lies behind the guard never looks like the guard's redirect. *)
Lemma CreateNoteView_dispatch_not_guard (fuel : nat) (g : rng) (db : database)
    (req : request) :
  CreateNoteView_dispatch fuel g db req <> Ok (HttpResponseRedirect "notes", db, g).
Proof.
  unfold CreateNoteView_dispatch.
  destruct (req_user req) as [|u]; [done|].
  destruct (req_method req) as [|data].
  - unfold CloneNoteView_get. by destruct (CloneNoteView_get_initial db req).
  - unfold CloneNoteView_post.
    destruct (CloneNoteView_get_initial db req); [|done].
    destruct (NoteForm_is_valid data); [|done].
    unfold CloneNoteView_form_valid.
    destruct (get_object db req); [|done].
    intros H. by apply form_valid_moves_generator in H.
Qed.

Lemma clone_dispatch_allowed (fuel : nat) (g : rng) (db : database)
    (req : request) (row : Note) :
  notes db !! req_pk req = Some row ->
  may_clone row (req_user req) ->
  CloneNoteView_dispatch fuel g db req = CreateNoteView_dispatch fuel g db req.
Proof.
  intros Hrow Hmay%guard_false. unfold CloneNoteView_dispatch.
  rewrite (get_object_stored _ _ _ Hrow).
  change (note_is_public (load (req_pk req) row)) with (note_is_public row).
  change (note_user (load (req_pk req) row)) with (note_user row).
  by rewrite Hmay.
Qed.

Lemma clone_dispatch_refused (fuel : nat) (g : rng) (db : database)
    (req : request) (row : Note) :
  notes db !! req_pk req = Some row ->
  ~ may_clone row (req_user req) ->
  CloneNoteView_dispatch fuel g db req = Ok (HttpResponseRedirect "notes", db, g).
Proof.
  intros Hrow Hno. unfold CloneNoteView_dispatch.
  rewrite (get_object_stored _ _ _ Hrow).
  change (note_is_public (load (req_pk req) row)) with (note_is_public row).
  change (note_user (load (req_pk req) row)) with (note_user row).
  destruct (negb (note_is_public row) && negb (is_user (note_user row) (req_user req)))
    eqn:E; [done|].
  by apply guard_false in E.
Qed.

Lemma may_clone_dec (row : Note) (ru : request_user) :
  {may_clone row ru} + {~ may_clone row ru}.
Proof.
  destruct (negb (note_is_public row) && negb (is_user (note_user row) ru)) eqn:E.
  - right. rewrite <- guard_false. congruence.
  - left. by apply guard_false.
Qed.

(** C5. For a stored source Note and any requesting user, [dispatch] goes on
    to the handling of the request exactly when the Note is public or the
    requester owns it; otherwise it answers with the redirect to the notes
    list, and tables and generator are as before: no Note is created and no
    counter moves. *)
Theorem clone_dispatch_guard (fuel : nat) (g : rng) (db : database)
    (req : request) (row : Note) :
  notes db !! req_pk req = Some row ->
  (may_clone row (req_user req) <->
   CloneNoteView_dispatch fuel g db req = CreateNoteView_dispatch fuel g db req) /\
  (~ may_clone row (req_user req) ->
   CloneNoteView_dispatch fuel g db req = Ok (HttpResponseRedirect "notes", db, g)).
Proof.
  intros Hrow. split; [|by apply clone_dispatch_refused].
  split; [by apply clone_dispatch_allowed|].
  intros Heq. destruct (may_clone_dec row (req_user req)) as [|Hno]; [done|].
  rewrite (clone_dispatch_refused _ _ _ _ _ Hrow Hno) in Heq.
  symmetry in Heq. by apply CreateNoteView_dispatch_not_guard in Heq.
Qed.

Lemma id_free_increment (db : database) (pk0 : Z) (s : string) :
  id_free (increment_clone_count db pk0) s <-> id_free db s.
Proof.
  rewrite !id_free_iff. unfold stored_ids, increment_clone_count; simpl.
  by rewrite dom_alter_L.
Qed.

Lemma get_initial_stored (db : database) (req : request) (row : Note) :
  notes db !! req_pk req = Some row ->
  CloneNoteView_get_initial db req =
  Some (<["tags" := tags_to_string (note_tags row)]>
          (<["content" := note_content row]> (<["title" := note_title row]> ∅))).
Proof.
  intros H. unfold CloneNoteView_get_initial.
  by rewrite (get_object_stored _ _ _ H).
Qed.

Lemma clone_form_valid_Ok (fuel : nat) (g : rng) (db : database) (req : request)
    (u : Z) (data : NoteFormData) (row : Note) (r : response)
    (db' : database) (g' : rng) :
  notes db !! req_pk req = Some row ->
  CloneNoteView_form_valid fuel g db req u data = Ok (r, db', g') ->
  cloned db db' (req_pk req) u data.
Proof.
  intros Hrow. unfold CloneNoteView_form_valid, CreateNoteView_form_valid.
  rewrite (get_object_stored _ _ _ Hrow).
  destruct (Note_save _ _ _ _) as [[[o d] g1]| |] eqn:E; simpl; [|done..].
  intros [= _ <- _].
  apply Note_save_Ok in E as (z & Hz & -> & [(Ht & _)|(_ & s & -> & _ & Hf & _)]);
    [done|].
  apply id_free_increment, id_free_iff in Hf as (z' & Hz' & Hnew).
  assert (z' = z) as ->.
  { unfold stored_as in Hz'. unfold get_prep_value in Hz.
    cbn [set_id note_id] in Hz. rewrite Hz' in Hz. simpl in Hz. congruence. }
  by eexists z, _.
Qed.

Lemma clone_dispatch_Ok (fuel : nat) (g : rng) (db : database) (req : request)
    (row : Note) (r : response) (db' : database) (g' : rng) :
  notes db !! req_pk req = Some row ->
  CloneNoteView_dispatch fuel g db req = Ok (r, db', g') ->
  db' = db \/
  exists u data, req_user req = User u /\ req_method req = POST data /\
                 NoteForm_is_valid data = true /\ may_clone row (req_user req) /\
                 cloned db db' (req_pk req) u data.
Proof.
  intros Hrow.
  destruct (may_clone_dec row (req_user req)) as [Hmay|Hno].
  2:{ rewrite (clone_dispatch_refused _ _ _ _ _ Hrow Hno).
      intros [= _ <- _]. by left. }
  rewrite (clone_dispatch_allowed _ _ _ _ _ Hrow Hmay).
  unfold CreateNoteView_dispatch.
  destruct (req_user req) as [|u] eqn:Hu. { intros [= _ <- _]. by left. }
  destruct (req_method req) as [|data] eqn:Hm. { intros [= _ <- _]. by left. }
  unfold CloneNoteView_post. rewrite (get_initial_stored _ _ _ Hrow).
  destruct (NoteForm_is_valid data) eqn:Hv; [|intros [= _ <- _]; by left].
  intros H%(clone_form_valid_Ok _ _ _ _ _ _ row); [|done].
  right. by exists u, data.
Qed.

Lemma clone_dispatch_returns (fuel : nat) (g : rng) (db : database) (req : request)
    (row : Note) (u : Z) (data : NoteFormData) (k : nat) :
  clone_request db req row u data ->
  u ∈ users db ->
  (k < fuel)%nat ->
  id_free db (candidate g k) ->
  returns (CloneNoteView_dispatch fuel g db req).
Proof.
  intros (Hrow & Hu & Hm & Hv & Hmay) Huser Hk Hfree.
  rewrite (clone_dispatch_allowed _ _ _ _ _ Hrow Hmay).
  unfold CreateNoteView_dispatch. rewrite Hu, Hm.
  unfold CloneNoteView_post. rewrite (get_initial_stored _ _ _ Hrow), Hv.
  unfold CloneNoteView_form_valid, CreateNoteView_form_valid.
  rewrite (get_object_stored _ _ _ Hrow).
  destruct (Note_save_returns fuel g (increment_clone_count db (req_pk req))
              (form_instance u (req_now req) data)) as [[[o d] g1] ->].
  { split; [done|]. right. split; [done|].
    exists k. split; [done|]. by apply id_free_increment. }
  by eexists.
Qed.

Lemma clone_request_Ok (fuel : nat) (g : rng) (db : database) (req : request)
    (row : Note) (u : Z) (data : NoteFormData) (r : response)
    (db' : database) (g' : rng) :
  clone_request db req row u data ->
  CloneNoteView_dispatch fuel g db req = Ok (r, db', g') ->
  cloned db db' (req_pk req) u data.
Proof.
  intros (Hrow & Hu & Hm & Hv & Hmay).
  rewrite (clone_dispatch_allowed _ _ _ _ _ Hrow Hmay).
  unfold CreateNoteView_dispatch. rewrite Hu, Hm.
  unfold CloneNoteView_post. rewrite (get_initial_stored _ _ _ Hrow), Hv.
  by apply (clone_form_valid_Ok _ _ _ _ _ _ row).
Qed.

Lemma set_ids_not_stored (db : database) (z pk0 : Z) (row : Note) :
  z ∉ stored_ids db -> notes db !! pk0 = Some row -> pk0 <> z.
Proof. intros Hz Hrow ->. apply Hz. apply elem_of_dom. by eexists. Qed.

(** C6. A clone that goes through (a valid form posted by an authenticated
    user who may clone the stored source, a stored user, a generator that
    draws a free id before the fuel is spent) returns and leaves the source
    Note with its clone counter raised by exactly 1, and every other Note
    stored before with the row it had. *)
Theorem clone_increments_source_counter (fuel : nat) (g : rng) (db : database)
    (req : request) (row : Note) (u : Z) (data : NoteFormData) (k : nat) :
  clone_request db req row u data ->
  u ∈ users db ->
  (k < fuel)%nat ->
  id_free db (candidate g k) ->
  exists r db' g' row',
    CloneNoteView_dispatch fuel g db req = Ok (r, db', g') /\
    notes db' !! req_pk req = Some row' /\
    note_clone_count row' = note_clone_count row + 1 /\
    (forall z, z <> req_pk req -> z ∈ stored_ids db ->
               notes db' !! z = notes db !! z).
Proof.
  intros Hreq Huser Hk Hfree.
  destruct (clone_dispatch_returns fuel g db req row u data k)
    as [[[r db'] g'] Hd]; [done..|].
  pose proof Hreq as (Hrow & Hu & Hm & Hv & Hmay).
  destruct (clone_request_Ok _ _ _ _ _ _ _ _ _ _ Hreq Hd)
    as (z & new & Hz & Hn & _).
  exists r, db', g', (set_clone_count (note_clone_count row + 1) row).
  split; [done|]. rewrite Hn.
  pose proof (set_ids_not_stored _ _ _ _ Hz Hrow) as Hne.
  split. { by rewrite lookup_insert_ne, lookup_alter_eq, Hrow. }
  split; [done|].
  intros z' Hz' Hin.
  rewrite lookup_insert_ne, lookup_alter_ne; [done|done|].
  intros ->. contradiction.
Qed.

(** C7. For an authenticated user who may clone a stored Note, the GET of
    the clone view renders the form with an initial dictionary of exactly
    three entries, the source's title, content and serialised tags, and
    changes nothing; and whatever the request, a call that returns leaves
    the source Note stored with the title, content and visibility it had. *)
Theorem clone_prepopulates_form (fuel : nat) (g : rng) (db : database)
    (req : request) (row : Note) (u : Z) :
  notes db !! req_pk req = Some row ->
  req_user req = User u ->
  may_clone row (req_user req) ->
  (req_method req = GET ->
   exists initial : gmap string string,
     CloneNoteView_dispatch fuel g db req =
       Ok (TemplateResponse "clone_note.html" (FormContext initial), db, g) /\
     initial !! "title" = Some (note_title row) /\
     initial !! "content" = Some (note_content row) /\
     initial !! "tags" = Some (tags_to_string (note_tags row)) /\
     dom initial = {[ "title"; "content"; "tags" ]}) /\
  (forall r db' g',
     CloneNoteView_dispatch fuel g db req = Ok (r, db', g') ->
     exists row',
       notes db' !! req_pk req = Some row' /\
       note_title row' = note_title row /\
       note_content row' = note_content row /\
       note_is_public row' = note_is_public row).
Proof.
  intros Hrow Hu Hmay. split.
  - intros Hm. eexists. split.
    + rewrite (clone_dispatch_allowed _ _ _ _ _ Hrow Hmay).
      unfold CreateNoteView_dispatch. rewrite Hu, Hm.
      unfold CloneNoteView_get. by rewrite (get_initial_stored _ _ _ Hrow).
    + split; [done|]. split; [done|]. split; [done|].
      rewrite !dom_insert_L, dom_empty_L. set_solver.
  - intros r db' g' Hd.
    destruct (clone_dispatch_Ok _ _ _ _ _ _ _ _ Hrow Hd)
      as [->|(u' & data & _ & _ & _ & _ & z & new & Hz & Hn & _)].
    + by exists row.
    + exists (set_clone_count (note_clone_count row + 1) row).
      split; [|done]. rewrite Hn.
      pose proof (set_ids_not_stored _ _ _ _ Hz Hrow) as Hne.
      by rewrite lookup_insert_ne, lookup_alter_eq, Hrow.
Qed.

(** ** References and their Notes *)

Lemma references_valid_more_notes (db db' : database) :
  references db' = references db ->
  (forall z, is_Some (notes db !! z) -> is_Some (notes db' !! z)) ->
  references_valid db -> references_valid db'.
Proof.
  intros Hr Hn Hv k r Hk. apply Hn. rewrite Hr in Hk. by apply (Hv k).
Qed.

Lemma Note_delete_references (z : Z) (db : database) (k : Z) (r : Reference) :
  references (Note_delete z db) !! k = Some r <->
  references db !! k = Some r /\ ref_note r <> z.
Proof. unfold Note_delete; simpl. by rewrite map_lookup_filter_Some. Qed.

Lemma Note_delete_valid (z : Z) (db : database) :
  references_valid db -> references_valid (Note_delete z db).
Proof.
  intros Hv k r [Hk Hne]%Note_delete_references.
  simpl. rewrite lookup_delete_ne by done. by apply (Hv k).
Qed.

Lemma User_delete_valid (u : Z) (db : database) :
  references_valid db -> references_valid (User_delete u db).
Proof.
  intros Hv k r. unfold User_delete; simpl.
  rewrite map_lookup_filter_Some; simpl. intros [Hk Hown].
  destruct (Hv k r Hk) as [n Hn].
  exists n. apply map_lookup_filter_Some. split; [done|]; simpl.
  unfold owned_by in Hown. rewrite Hn in Hown.
  by apply bool_decide_eq_false in Hown.
Qed.

Lemma db_step_valid (db db' : database) :
  db_step db db' -> references_valid db -> references_valid db'.
Proof.
  intros Hstep Hv. destruct Hstep as
    [fuel g db self self' db' g' H | z db | db key r k db' H | k db | u db | u db
    | db req | fuel g db req r db' g' H].
  - apply Note_save_Ok in H as (z & _ & -> & _).
    apply (references_valid_more_notes db); [done| |done].
    intros z' Hz'; simpl. rewrite lookup_insert. by case_decide.
  - by apply Note_delete_valid.
  - unfold Reference_save in H. case_bool_decide as Hfk; [|done].
    injection H as _ <-. intros k' r'; simpl.
    rewrite lookup_insert. case_decide; [by intros [= <-]|apply Hv].
  - intros k' r'; simpl. intros Hk%lookup_delete_Some. by apply (Hv k'), Hk.
  - done.
  - by apply User_delete_valid.
  - unfold ViewNoteView.
    destruct (get_object db req); [|done].
    destruct (_ && _); [done|].
    destruct (req_method req); [|done]; simpl.
    apply (references_valid_more_notes db); [done| |done].
    intros z' Hz'; simpl. rewrite lookup_insert. by case_decide.
  - unfold CloneNoteView_dispatch in H.
    destruct (notes db !! req_pk req) as [row|] eqn:Hrow.
    2:{ unfold get_object in H. rewrite Hrow in H. by injection H as _ <- _. }
    fold (CloneNoteView_dispatch fuel g db req) in H.
    destruct (clone_dispatch_Ok _ _ _ _ _ _ _ _ Hrow H)
      as [->|(u & data & _ & _ & _ & _ & z & new & _ & Hn & _ & _ & _ & _ & _ & Hr)];
      [done|].
    apply (references_valid_more_notes db); [done| |done].
    intros z' Hz'. rewrite Hn, lookup_insert. case_decide; [done|].
    rewrite lookup_alter. case_decide; [|done]. subst.
    destruct Hz' as [? ->]. by eexists.
Qed.

(** C8. From tables in which every Reference points at a stored Note, every
    sequence of model and view operations leads to tables of which the same
    is true; and deleting a Note there removes it together with every
    Reference that points at it, keeps every other Reference, and again
    leaves no Reference without its Note. *)
Theorem no_reference_outlives_its_note (db db' : database) (z : Z) :
  references_valid db ->
  rtc db_step db db' ->
  references_valid db' /\
  notes (Note_delete z db') !! z = None /\
  (forall k r, references db' !! k = Some r -> ref_note r = z ->
               references (Note_delete z db') !! k = None) /\
  (forall k r, references db' !! k = Some r -> ref_note r <> z ->
               references (Note_delete z db') !! k = Some r) /\
  references_valid (Note_delete z db').
Proof.
  intros Hv Hsteps.
  assert (references_valid db') as Hv'.
  { induction Hsteps as [|x y w Hxy _ IH]; [done|].
    apply IH. by apply (db_step_valid x). }
  split; [done|]. split; [apply lookup_delete_eq|].
  split; [|split].
  - intros k r Hk Hz. unfold Note_delete; simpl.
    apply map_lookup_filter_None. right. intros r' Hk'; simpl.
    rewrite Hk in Hk'. injection Hk' as <-. by intros [].
  - intros k r Hk Hne. by apply Note_delete_references.
  - by apply Note_delete_valid.
Qed.

(** ** The notes list *)

Lemma num_pages_bounds (count : Z) :
  0 <= count ->
  1 <= num_pages count /\
  Z.max 1 count <= 24 * num_pages count < Z.max 1 count + 24.
Proof.
  intros Hc. unfold num_pages, paginate_by.
  pose proof (Z.div_mod (Z.max 1 count + 24 - 1) 24 ltac:(lia)).
  pose proof (Z.mod_pos_bound (Z.max 1 count + 24 - 1) 24 ltac:(lia)).
  lia.
Qed.

Lemma take_both_ge {A : Type} (l : list A) (n m : nat) :
  (length l <= n)%nat -> (length l <= m)%nat -> take n l = take m l.
Proof. intros. by rewrite !take_ge. Qed.

Lemma Paginator_page_in_range {A : Type} (l : list A) (i : nat) :
  Z.of_nat i < num_pages (Z.of_nat (length l)) ->
  Paginator_page l (Z.of_nat i + 1) = Some (chunk l i).
Proof.
  intros Hi. unfold Paginator_page, chunk, slice, paginate_by.
  pose proof (num_pages_bounds (Z.of_nat (length l)) ltac:(lia)) as [_ Hb].
  destruct (Z.ltb_spec (Z.of_nat i + 1) 1); [lia|].
  destruct (Z.ltb_spec (num_pages (Z.of_nat (length l))) (Z.of_nat i + 1)); [lia|].
  cbn [andb]. f_equal.
  replace (Z.to_nat ((Z.of_nat i + 1 - 1) * 24)) with (24 * i)%nat by lia.
  destruct (Z.leb_spec (Z.of_nat (length l)) ((Z.of_nat i + 1 - 1) * 24 + 24)).
  - apply take_both_ge; rewrite length_drop; lia.
  - f_equal. lia.
Qed.

Lemma Paginator_page_out_of_range {A : Type} (l : list A) (number : Z) :
  number < 1 \/ num_pages (Z.of_nat (length l)) < number ->
  Paginator_page l number = None.
Proof.
  intros Hn. unfold Paginator_page.
  pose proof (num_pages_bounds (Z.of_nat (length l)) ltac:(lia)) as [? _].
  destruct (Z.ltb_spec number 1); [done|].
  destruct (Z.ltb_spec (num_pages (Z.of_nat (length l))) number); [|lia].
  destruct (Z.eqb_spec number 1); [lia|done].
Qed.

Lemma concat_chunks {A : Type} (l : list A) (m : nat) :
  concat (chunk l <$> seq 0 m) = take (24 * m) l.
Proof.
  induction m as [|m IH]; [by rewrite Nat.mul_0_r|].
  rewrite seq_S, fmap_app, concat_app, IH; simpl.
  rewrite app_nil_r. unfold chunk. rewrite take_take_drop. f_equal. lia.
Qed.

Lemma length_chunk {A : Type} (l : list A) (i : nat) : (length (chunk l i) <= 24)%nat.
Proof. unfold chunk. rewrite length_take. lia. Qed.

(** The pages of a list, first to last, put end to end give the list back,
    and none holds more than 24 items. *)
Lemma Paginator_pages {A : Type} (l : list A) :
  exists pages,
    Paginator_page l <$> seqZ 1 (num_pages (Z.of_nat (length l))) = Some <$> pages /\
    concat pages = l /\
    Forall (fun p => (length p <= 24)%nat) pages.
Proof.
  pose proof (num_pages_bounds (Z.of_nat (length l)) ltac:(lia)) as [H1 Hb].
  exists (chunk l <$> seq 0 (Z.to_nat (num_pages (Z.of_nat (length l))))).
  split; [|split].
  - unfold seqZ. rewrite <- !list_fmap_compose.
    apply Forall_fmap_ext_1, Forall_forall. intros i Hi%elem_of_seq; simpl.
    apply Paginator_page_in_range. lia.
  - rewrite concat_chunks. apply take_ge. lia.
  - apply Forall_fmap, Forall_forall. intros i _. apply length_chunk.
Qed.

Global Instance edited_after_total : Total edited_after.
Proof. intros a b. unfold edited_after. lia. Qed.

Global Instance edited_after_trans : Transitive edited_after.
Proof. intros a b c. unfold edited_after. lia. Qed.

Lemma elem_of_user_notes (db : database) (u : Z) (n : Note) :
  n ∈ user_notes db u <-> note_of db u n.
Proof.
  unfold user_notes, note_of. rewrite list_elem_of_filter, list_elem_of_fmap. split.
  - intros [Hu ([z row] & -> & Hin%elem_of_map_to_list)]. by exists z, row.
  - intros (z & row & Hrow & Hu & ->). split; [done|].
    exists (z, row). split; [done|]. by apply elem_of_map_to_list.
Qed.

Lemma NoDup_user_notes (db : database) (u : Z) : NoDup (user_notes db u).
Proof.
  unfold user_notes. apply NoDup_filter.
  apply (NoDup_fmap_1 note_id). rewrite <- list_fmap_compose.
  assert (note_id ∘ (fun kn : Z * Note => load kn.1 kn.2) = PkInt ∘ fst) as ->.
  { done. }
  rewrite list_fmap_compose. apply NoDup_fmap_2; [by intros ?? [=]|].
  apply NoDup_fst_map_to_list.
Qed.

Lemma StronglySorted_chunk {A : Type} (R : relation A) (l : list A) (i : nat) :
  StronglySorted R l -> StronglySorted R (chunk l i).
Proof.
  intros Hl. unfold chunk.
  rewrite <- (take_drop (24 * i) l) in Hl. apply StronglySorted_app_1_r in Hl.
  rewrite <- (take_drop 24 (drop (24 * i) l)) in Hl.
  by apply StronglySorted_app_1_l in Hl.
Qed.

Lemma chunk_subseteq {A : Type} (l : list A) (i : nat) : chunk l i ⊆ l.
Proof.
  unfold chunk. etrans; [apply subseteq_take|apply subseteq_drop].
Qed.

Lemma Paginator_page_Some {A : Type} (l : list A) (number : Z) (items : list A) :
  Paginator_page l number = Some items ->
  exists i, number = Z.of_nat i + 1 /\
            Z.of_nat i < num_pages (Z.of_nat (length l)) /\
            items = chunk l i.
Proof.
  intros H.
  destruct (decide (number < 1 \/ num_pages (Z.of_nat (length l)) < number))
    as [Hout|Hin].
  { by rewrite Paginator_page_out_of_range in H. }
  exists (Z.to_nat (number - 1)).
  assert (number = Z.of_nat (Z.to_nat (number - 1)) + 1) as Hn by lia.
  split; [done|]. split; [lia|].
  rewrite Hn, Paginator_page_in_range in H by lia. congruence.
Qed.

Lemma paginate_queryset_Some {A : Type} (l : list A) (page : page_arg)
    (items : list A) :
  paginate_queryset l page = Some items ->
  exists i, Z.of_nat i < num_pages (Z.of_nat (length l)) /\ items = chunk l i.
Proof.
  destruct page; simpl; [| | |done];
    intros (i & _ & Hi & ->)%Paginator_page_Some; by exists i.
Qed.

Lemma get_queryset_elem_of (db : database) (u : Z) (n : Note) :
  n ∈ NotesView_get_queryset db u <-> note_of db u n.
Proof.
  unfold NotesView_get_queryset.
  by rewrite merge_sort_Permutation, elem_of_user_notes.
Qed.

(** C9. For an authenticated user the queryset of the notes list holds
    exactly the Notes stored for that user, each once, later edits first;
    its pages, first to last, put end to end give it back and none holds
    more than 24 Notes; page [i + 1] of a GET is the [i]-th run of 24, and
    whatever list the view renders is such a run: at most 24 Notes, all of
    them the user's, later edits first. *)
Theorem notes_list_own_sorted_paged (db : database) (req : request) (u : Z) :
  req_user req = User u ->
  req_method req = GET ->
  (forall n, n ∈ NotesView_get_queryset db u <-> note_of db u n) /\
  NoDup (NotesView_get_queryset db u) /\
  StronglySorted edited_after (NotesView_get_queryset db u) /\
  (exists pages,
      Paginator_page (NotesView_get_queryset db u)
        <$> seqZ 1 (num_pages (Z.of_nat (length (NotesView_get_queryset db u))))
      = Some <$> pages /\
      concat pages = NotesView_get_queryset db u /\
      Forall (fun p => (length p <= 24)%nat) pages) /\
  (forall i : nat,
      req_page req = PageInt (Z.of_nat i + 1) ->
      Z.of_nat i < num_pages (Z.of_nat (length (NotesView_get_queryset db u))) ->
      NotesView db req =
      TemplateResponse "notes.html"
                       (ListContext (chunk (NotesView_get_queryset db u) i))) /\
  (forall template object_list,
      NotesView db req = TemplateResponse template (ListContext object_list) ->
      template = "notes.html" /\
      (length object_list <= 24)%nat /\
      (forall n, n ∈ object_list -> note_of db u n) /\
      StronglySorted edited_after object_list).
Proof.
  intros Hu Hm.
  assert (StronglySorted edited_after (NotesView_get_queryset db u)) as Hsorted.
  { apply StronglySorted_merge_sort; apply _. }
  split; [apply get_queryset_elem_of|].
  split. { unfold NotesView_get_queryset.
           rewrite merge_sort_Permutation. apply NoDup_user_notes. }
  split; [done|]. split; [apply Paginator_pages|]. split.
  - intros i Hp Hi. unfold NotesView. rewrite Hu, Hm, Hp; simpl.
    by rewrite Paginator_page_in_range.
  - intros template object_list. unfold NotesView. rewrite Hu, Hm.
    destruct (paginate_queryset _ _) as [items|] eqn:E; [|done].
    intros [= <- <-].
    apply paginate_queryset_Some in E as (i & _ & ->).
    split; [done|]. split; [apply length_chunk|]. split.
    + intros n Hn%chunk_subseteq. by apply get_queryset_elem_of.
    + by apply StronglySorted_chunk.
Qed.

(** ** Termination of the retry loop *)

Lemma pow10_pos (n : nat) : 0 < 10 ^ Z.of_nat n.
Proof. apply Z.pow_pos_nonneg; lia. Qed.

Lemma leading_digit (n : nat) (z : Z) :
  0 <= z < 10 ^ Z.of_nat (S n) ->
  0 <= z / 10 ^ Z.of_nat n < 10 /\ 0 <= z mod 10 ^ Z.of_nat n < 10 ^ Z.of_nat n.
Proof.
  intros Hz. pose proof (pow10_pos n) as Hp.
  rewrite Nat2Z.inj_succ, Z.pow_succ_r in Hz by lia.
  split; [|by apply Z.mod_pos_bound].
  split; [apply Z.div_pos; lia|].
  apply Z.div_lt_upper_bound; lia.
Qed.

Lemma digit_string_length (n : nat) (z : Z) : String.length (digit_string n z) = n.
Proof. revert z; induction n as [|n IH]; intros z; simpl; [done|]. by rewrite IH. Qed.

Lemma digit_string_all_digits (n : nat) (z : Z) :
  0 <= z < 10 ^ Z.of_nat n -> all_digits (digit_string n z) = true.
Proof.
  revert z; induction n as [|n IH]; intros z Hz; [done|].
  destruct (leading_digit n z Hz) as [Hd Hr].
  cbn [digit_string all_digits]. rewrite (IH _ Hr), andb_true_r.
  apply bool_decide_eq_true. rewrite digit_char_val by lia. by eexists.
Qed.

Lemma int_acc_digit_string (n : nat) (z acc : Z) :
  0 <= z < 10 ^ Z.of_nat n ->
  int_acc acc (digit_string n z) = Some (acc * 10 ^ Z.of_nat n + z).
Proof.
  revert z acc; induction n as [|n IH]; intros z acc Hz.
  - simpl in *. f_equal. lia.
  - destruct (leading_digit n z Hz) as [Hd Hr].
    cbn [digit_string int_acc]. rewrite digit_char_val by lia.
    rewrite (IH _ _ Hr). f_equal.
    rewrite Z2Nat.id by lia.
    rewrite Nat2Z.inj_succ, Z.pow_succ_r by lia.
    pose proof (Z.div_mod z (10 ^ Z.of_nat n)) as Hdm.
    pose proof (pow10_pos n). lia.
Qed.

Lemma digit_string_eight (z : Z) :
  0 <= z < 10 ^ 8 ->
  eight_digits (digit_string 8 z) /\ stored_as (digit_string 8 z) z.
Proof.
  intros Hz. split; [split|].
  - apply digit_string_length.
  - by apply digit_string_all_digits.
  - unfold stored_as, int.
    pose proof (int_acc_digit_string 8 z 0 Hz) as H.
    destruct (digit_string 8 z) eqn:E; [done|].
    rewrite H. f_equal.
Qed.

(** With fewer than 10^8 Notes some number below 10^8 is the id of none. *)
Lemma free_number (db : database) :
  Z.of_nat (size (notes db)) < 10 ^ 8 ->
  exists z, 0 <= z < 10 ^ 8 /\ z ∉ stored_ids db.
Proof.
  intros Hsize.
  destruct (decide (Forall (fun z => z ∈ stored_ids db) (seqZ 0 (10 ^ 8))))
    as [Hall|Hsome].
  - exfalso.
    assert (list_to_set (seqZ 0 (10 ^ 8)) ⊆ stored_ids db) as Hsub.
    { intros z Hz%elem_of_list_to_set. by eapply Forall_forall in Hall. }
    apply subseteq_size in Hsub.
    rewrite size_list_to_set, length_seqZ in Hsub by apply NoDup_seqZ.
    unfold stored_ids in Hsub. rewrite size_dom in Hsub. lia.
  - apply not_Forall_Exists, Exists_exists in Hsome as (z & Hz & Hfree); [|apply _].
    apply elem_of_seqZ in Hz. exists z. split; [lia|done].
Qed.

(** With fewer than 10^8 Notes some eight-digit id is free. *)
Lemma free_id (db : database) :
  Z.of_nat (size (notes db)) < 10 ^ 8 ->
  exists s, eight_digits s /\ id_free db s.
Proof.
  intros (z & Hz & Hfree)%free_number.
  destruct (digit_string_eight z Hz) as [H8 Hs].
  exists (digit_string 8 z). split; [done|].
  apply id_free_iff. by exists z.
Qed.

Lemma digit_char_of (c : ascii) :
  is_Some (digit_val c) -> (digit_of c < 10)%nat /\ digit_char (digit_of c) = c.
Proof.
  intros [d Hd].
  destruct c as [b0 b1 b2 b3 b4 b5 b6 b7].
  destruct b0, b1, b2, b3, b4, b5, b6, b7;
    first [ by vm_compute in Hd
          | split; [unfold digit_of; simpl; lia | reflexivity] ].
Qed.

Lemma get_all_digits (s : string) (i : nat) (c : ascii) :
  all_digits s = true -> String.get i s = Some c ->
  (i < String.length s)%nat /\ is_Some (digit_val c).
Proof.
  revert i; induction s as [|c' s IH]; intros i Hs Hget; [done|].
  simpl in Hs. apply andb_true_iff in Hs as [Hc Hs].
  destruct i as [|i]; simpl in *.
  - injection Hget as <-. split; [lia|]. by apply bool_decide_eq_true in Hc.
  - destruct (IH i Hs Hget). split; [lia|done].
Qed.

Lemma random_digits_spec (n : nat) :
  forall g s,
    String.length s = n ->
    (forall i c, String.get i s = Some c ->
                 digit_char (tape g (i + cursor g) mod 10) = c) ->
    (random_digits n g).1 = s.
Proof.
  induction n as [|n IH]; intros g s Hlen Hget.
  - by destruct s.
  - destruct s as [|c s]; [done|]. rewrite random_digits_S; cbn [fst].
    f_equal.
    + by apply (Hget 0%nat).
    + apply IH; [by injection Hlen|].
      intros i c' Hi. rewrite cursor_advance.
      replace (i + (1 + cursor g))%nat with (S i + cursor g)%nat by lia.
      by apply Hget.
Qed.

(** On the tape of a run of eight-digit strings, turn [k] draws the [k]-th. *)
Lemma candidate_run (run : list string) (k : nat) (s : string) :
  run !! k = Some s -> eight_digits s -> candidate (rng_of_run run) k = s.
Proof.
  intros Hk [Hlen Hs]. unfold candidate.
  apply random_digits_spec; [done|].
  intros i c Hi. unfold advance, rng_of_run; cbn [tape cursor].
  destruct (get_all_digits s i c Hs Hi) as [Hlt Hc]. rewrite Hlen in Hlt.
  unfold tape_of_run.
  replace ((i + (8 * k + 0)) / 8)%nat with k
    by (apply (Nat.div_unique _ 8 k i); lia).
  replace ((i + (8 * k + 0)) mod 8)%nat with i
    by (apply (Nat.mod_unique _ 8 k i); lia).
  rewrite Hk, Hi.
  destruct (digit_char_of c Hc) as [Hd Hdc].
  by rewrite Nat.mod_small.
Qed.

(** The id 0 is one [save] assigns: on the run that draws "00000000", a Note
    without id is stored under 0 when 0 is free. *)
Lemma id_zero_is_assigned (db : database) (self : Note) :
  truthy (note_id self) = false ->
  note_user self ∈ users db ->
  0 ∉ stored_ids db ->
  exists self' db' g',
    Note_save 1 (rng_of_run ["00000000"]) db self = Ok (self', db', g') /\
    note_id self' = PkStr "00000000" /\
    is_Some (notes db' !! 0).
Proof.
  intros Ht Hu H0.
  assert (candidate (rng_of_run ["00000000"]) 0 = "00000000") as Hc.
  { by apply candidate_run. }
  assert (id_free db "00000000") as Hfree.
  { apply id_free_iff. by exists 0. }
  rewrite Note_save_unset, generate_id_S, Hc, Hfree by done; simpl.
  rewrite (Model_save_stored _ _ 0) by done; simpl.
  eexists _, _, _. split; [done|]. split; [done|].
  simpl. rewrite lookup_insert_eq. by eexists.
Qed.

(** The loop comes back on a run exactly when the run draws a free id. *)
Lemma generate_id_returns_iff (db : database) (g : rng) :
  (exists k, id_free db (candidate g k)) <->
  (exists fuel, returns (generate_id fuel db g)).
Proof.
  split.
  - intros [k Hk]. exists (S k).
    destruct (generate_id_free db k g (S k) ltac:(lia) Hk) as (j & _ & _ & ->).
    by eexists.
  - intros (fuel & [s g'] & H).
    apply generate_id_Ok in H as (j & _ & -> & _ & Hf). by exists j.
Qed.

Lemma taken_true (db : database) s : taken db s = true <-> id_taken db s.
Proof.
  unfold taken, id_taken.
  destruct (Note_objects_filter_id_exists db (PkStr s)) as [[]| |]; naive_solver.
Qed.

Lemma digit_string_of_int (s : string) :
  forall acc z,
    all_digits s = true -> 0 <= acc -> int_acc acc s = Some z ->
    s = digit_string (String.length s) (z - acc * 10 ^ Z.of_nat (String.length s)).
Proof.
  induction s as [|c s IH]; intros acc z Hs Hacc Hz; [done|].
  cbn [all_digits] in Hs. apply andb_true_iff in Hs as [Hc Hs].
  apply bool_decide_eq_true in Hc.
  destruct (digit_char_of c Hc) as [Hlt Hdc].
  cbn [int_acc] in Hz. unfold digit_of in *.
  destruct (digit_val c) as [d|] eqn:Hd; [|by destruct Hc].
  assert (0 <= d <= 9) as Hd9.
  { unfold digit_val in Hd. destruct (_ && _) eqn:E; [|done].
    injection Hd as <-. apply andb_true_iff in E as [?%Z.leb_le ?%Z.leb_le]. lia. }
  destruct (int_acc_bounds s (acc * 10 + d) Hs ltac:(lia)) as (z' & Hz' & Hb).
  rewrite Hz in Hz'. injection Hz' as <-.
  specialize (IH (acc * 10 + d) z Hs ltac:(lia) Hz).
  cbn [String.length digit_string].
  set (n := String.length s) in *. pose proof (pow10_pos n) as Hp.
  rewrite Nat2Z.inj_succ, Z.pow_succ_r by lia.
  set (p := 10 ^ Z.of_nat n) in *.
  assert ((z - acc * (10 * p)) = d * p + (z - (acc * 10 + d) * p)) as -> by lia.
  rewrite Z.div_add_l, Z.div_small, Z.add_0_r by lia.
  rewrite Z.add_comm, Z.mod_add, Z.mod_small by lia.
  by rewrite Hdc, <- IH.
Qed.

Lemma elem_of_eight_digit_ids (s : string) :
  s ∈ eight_digit_ids <-> eight_digits s.
Proof.
  unfold eight_digit_ids. rewrite list_elem_of_fmap. split.
  - intros (z & -> & Hz%elem_of_seqZ). apply digit_string_eight. lia.
  - intros H8. destruct (int_eight_digits s H8) as (z & Hz & Hb).
    exists z. split; [|apply elem_of_seqZ; lia].
    destruct H8 as [Hlen Hs]. unfold int in Hz.
    destruct (int_acc 0 s) as [z'|] eqn:E; [|by destruct s].
    assert (z' = z) as -> by (destruct s; congruence).
    pose proof (digit_string_of_int s 0 z Hs ltac:(lia) E) as Heq.
    rewrite Hlen in Heq. by rewrite Z.mul_0_l, Z.sub_0_r in Heq.
Qed.

Lemma NoDup_eight_digit_ids : NoDup eight_digit_ids.
Proof.
  apply NoDup_fmap_2_strong; [|apply NoDup_seqZ].
  intros x y Hx%elem_of_seqZ Hy%elem_of_seqZ Heq.
  destruct (digit_string_eight x ltac:(lia)) as [_ Hsx].
  destruct (digit_string_eight y ltac:(lia)) as [_ Hsy].
  unfold stored_as in *. rewrite Heq in Hsx. congruence.
Qed.

Lemma length_eight_digit_ids : Z.of_nat (length eight_digit_ids) = 10 ^ 8.
Proof. unfold eight_digit_ids. rewrite length_fmap, length_seqZ. lia. Qed.

Lemma elem_of_runs (n : nat) (run : list string) :
  run ∈ runs n <-> length run = n /\ Forall eight_digits run.
Proof.
  revert run; induction n as [|n IH]; intros run; cbn [runs].
  - rewrite list_elem_of_singleton. split; [by intros ->|].
    intros [Hlen _]. by destruct run.
  - rewrite list_elem_of_bind. split.
    + intros (s & (r & -> & Hr%IH)%list_elem_of_fmap & Hs%elem_of_eight_digit_ids).
      destruct Hr as [<- Hr]. split; [done|]. by constructor.
    + intros [Hlen Hall]. destruct run as [|s r]; [done|].
      apply Forall_cons in Hall as [Hs Hr].
      exists s. split; [|by apply elem_of_eight_digit_ids].
      apply list_elem_of_fmap. exists r. split; [done|].
      apply IH. split; [|done]. by injection Hlen.
Qed.

Lemma NoDup_runs (n : nat) : NoDup (runs n).
Proof.
  induction n as [|n IH]; cbn [runs].
  - apply NoDup_singleton.
  - apply NoDup_bind; [| |apply NoDup_eight_digit_ids].
    + intros s1 s2 run _ _ (r1 & -> & _)%list_elem_of_fmap
        (r2 & [= -> _] & _)%list_elem_of_fmap. done.
    + intros s _. apply NoDup_fmap_2; [|done]. by intros ?? [=].
Qed.

Lemma length_bind_cons {A : Type} (l : list A) (R : list (list A)) :
  length (s ← l; cons s <$> R) = (length l * length R)%nat.
Proof.
  induction l as [|a l IH]; [done|].
  rewrite bind_cons, length_app, length_fmap, IH. simpl. lia.
Qed.

Lemma length_runs (n : nat) :
  length (runs n) = (length eight_digit_ids ^ n)%nat.
Proof.
  induction n as [|n IH]; [done|].
  cbn [runs]. rewrite length_bind_cons, IH. by rewrite Nat.pow_succ_r'.
Qed.

Lemma filter_Forall_cons {A : Type} (P : A -> Prop) `{!forall x, Decision (P x)}
    (a : A) (R : list (list A)) :
  length (filter (Forall P) (cons a <$> R)) =
  if decide (P a) then length (filter (Forall P) R) else 0%nat.
Proof.
  induction R as [|r R IH]; [by destruct (decide (P a))|].
  rewrite fmap_cons, !filter_cons.
  destruct (decide (P a)) as [Ha|Ha].
  - destruct (decide (Forall P r)) as [Hr|Hr].
    + rewrite decide_True by (by constructor). simpl. by rewrite IH.
    + rewrite decide_False; [done|]. by intros [_ ?]%Forall_cons.
  - rewrite decide_False; [done|]. by intros [? _]%Forall_cons.
Qed.

Lemma filter_Forall_bind {A : Type} (P : A -> Prop) `{!forall x, Decision (P x)}
    (l : list A) (R : list (list A)) :
  length (filter (Forall P) (s ← l; cons s <$> R)) =
  (length (filter P l) * length (filter (Forall P) R))%nat.
Proof.
  induction l as [|a l IH]; [done|].
  rewrite bind_cons, filter_app, length_app, IH, filter_Forall_cons, filter_cons.
  destruct (decide (P a)); simpl; lia.
Qed.

Lemma generate_id_OutOfFuel (db : database) (fuel : nat) (g : rng) :
  generate_id fuel db g = OutOfFuel <->
  forall k, (k < fuel)%nat -> id_taken db (candidate g k).
Proof.
  split.
  - intros Hout k Hk.
    destruct (eight_digits_checked db (candidate g k) (candidate_eight g k))
      as [Hfree|]; [|done].
    destruct (generate_id_free db k g fuel Hk Hfree) as (j & _ & _ & H).
    congruence.
  - revert g; induction fuel as [|fuel IH]; intros g Hall; [done|].
    rewrite generate_id_S, (Hall 0%nat) by lia; simpl.
    apply IH. intros k Hk. rewrite candidate_advance. apply Hall. lia.
Qed.

Lemma still_looping_run (db : database) (n : nat) (run : list string) :
  run ∈ runs n ->
  still_looping db n run = true <-> Forall (fun s => taken db s = true) run.
Proof.
  intros [Hlen H8]%elem_of_runs.
  assert (forall k s, run !! k = Some s -> candidate (rng_of_run run) k = s) as Hcand.
  { intros k s Hk. apply candidate_run; [done|].
    eapply Forall_lookup_1; eauto. }
  assert (still_looping db n run = true <->
          generate_id n db (rng_of_run run) = OutOfFuel) as ->.
  { unfold still_looping. by destruct (generate_id n db (rng_of_run run)). }
  rewrite generate_id_OutOfFuel, Forall_lookup. split.
  - intros Hall k s Hk. apply taken_true. rewrite <- (Hcand k s Hk).
    apply Hall. rewrite <- Hlen. by eapply lookup_lt_Some.
  - intros Hall k Hk.
    destruct (lookup_lt_is_Some_2 run k ltac:(lia)) as [s Hs].
    rewrite (Hcand k s Hs). apply taken_true. by apply (Hall k).
Qed.

(** Every generator is covered: its first [n] draws form one of the runs
    of [n] turns, and on that run the loop goes as it goes on the
    generator. *)
Lemma generator_run (db : database) (g : rng) (n : nat) :
  candidate g <$> seq 0 n ∈ runs n /\
  (generate_id n db g = OutOfFuel <->
   still_looping db n (candidate g <$> seq 0 n) = true).
Proof.
  assert (candidate g <$> seq 0 n ∈ runs n) as Hrun.
  { apply elem_of_runs. split; [by rewrite length_fmap, length_seq|].
    apply Forall_fmap, Forall_forall. intros k _. apply candidate_eight. }
  split; [done|].
  rewrite (still_looping_run db n _ Hrun), generate_id_OutOfFuel, Forall_fmap.
  rewrite Forall_forall. split.
  - intros Hall k Hk%elem_of_seq. apply taken_true, Hall. lia.
  - intros Hall k Hk. apply taken_true, (Hall k), elem_of_seq. lia.
Qed.

Lemma filter_ext_elem_of {A : Type} (P Q : A -> Prop)
    `{!forall x, Decision (P x), !forall x, Decision (Q x)} (l : list A) :
  (forall x, x ∈ l -> (P x <-> Q x)) -> filter P l = filter Q l.
Proof.
  induction l as [|a l IH]; intros Hext; [done|].
  rewrite !filter_cons.
  rewrite IH by (intros x Hx; apply Hext; by right).
  destruct (decide (P a)) as [Ha|Ha].
  - by rewrite decide_True by (by apply Hext; [left|]).
  - rewrite decide_False; [done|]. intros Hq. apply Ha, Hext; [by left|done].
Qed.

(** Of the runs of [n] turns, those that keep the loop going are the runs
    that draw taken ids only. *)
Lemma length_still_looping (db : database) (n : nat) :
  length (filter (fun run => still_looping db n run = true) (runs n)) =
  (taken_count db ^ n)%nat.
Proof.
  transitivity (length (filter (Forall (fun s => taken db s = true)) (runs n))).
  { f_equal. apply filter_ext_elem_of. intros run Hrun. by apply still_looping_run. }
  induction n as [|n IH]; [done|].
  cbn [runs]. rewrite filter_Forall_bind, IH. by rewrite Nat.pow_succ_r'.
Qed.

Lemma bernoulli (T : Z) (n : nat) :
  0 <= T -> T ^ Z.of_nat n * (T + Z.of_nat n) <= T * (T + 1) ^ Z.of_nat n.
Proof.
  intros HT. induction n as [|n IH]; [simpl; lia|].
  rewrite Nat2Z.inj_succ, !Z.pow_succ_r by lia.
  assert (0 <= T ^ Z.of_nat n) by (apply Z.pow_nonneg; lia).
  nia.
Qed.

(** Below any bound: with fewer taken than there are, the powers of the
    taken fall behind the powers of the total by any factor. *)
Lemma share_vanishes (T N M : Z) :
  0 <= T < N -> exists n : nat, M * T ^ Z.of_nat n < N ^ Z.of_nat n.
Proof.
  intros HT.
  destruct (decide (T = 0)) as [->|Hne].
  { exists 1%nat. simpl. lia. }
  exists (Z.to_nat (Z.max 0 (M * T)) + 1)%nat.
  set (n := (Z.to_nat (Z.max 0 (M * T)) + 1)%nat).
  pose proof (bernoulli T n ltac:(lia)) as Hb.
  assert ((T + 1) ^ Z.of_nat n <= N ^ Z.of_nat n) as Hmono
    by (apply Z.pow_le_mono_l; lia).
  assert (0 < T ^ Z.of_nat n) as Hpos by (apply Z.pow_pos_nonneg; lia).
  assert (M * T < T + Z.of_nat n) as Hn by lia.
  nia.
Qed.

Lemma taken_count_lt (db : database) :
  (exists s, eight_digits s /\ id_free db s) ->
  Z.of_nat (taken_count db) < 10 ^ 8.
Proof.
  intros (s & H8 & Hfree). rewrite <- length_eight_digit_ids.
  apply Nat2Z.inj_lt. unfold taken_count.
  apply (length_filter_lt _ _ s); [by apply elem_of_eight_digit_ids|].
  rewrite taken_true. unfold id_free, id_taken in *. congruence.
Qed.

(** The share of the runs of [n] turns on which the loop is still going
    falls below any bound as [n] grows, as soon as one id is free. *)
Lemma still_looping_vanishes (db : database) (M : Z) :
  (exists s, eight_digits s /\ id_free db s) ->
  exists n : nat,
    M * Z.of_nat (length (filter (fun run => still_looping db n run = true) (runs n)))
    < Z.of_nat (length (runs n)).
Proof.
  intros Hlt%taken_count_lt.
  destruct (share_vanishes (Z.of_nat (taken_count db)) (10 ^ 8) M ltac:(lia))
    as [n Hn].
  exists n. rewrite length_still_looping, length_runs.
  rewrite !Nat2Z.inj_pow. by rewrite length_eight_digit_ids.
Qed.

(** C10. With fewer than 10^8 Notes stored some eight-digit id is free.  On
    any run of the generator the loop comes back exactly when the run draws
    a free id at some turn.  While an id is free, some run ends the loop at
    its first turn, and among all runs of [n] turns (eight digits a turn,
    each run counted once) the share on which the loop is still going falls
    below any bound as [n] grows: the loop ends with probability 1.  When
    every eight-digit id is taken the loop never comes back, whatever the
    run and however long it is let to go on. *)
Theorem save_loop_termination (db : database) :
  (Z.of_nat (size (notes db)) < 10 ^ 8 ->
   exists s, eight_digits s /\ id_free db s) /\
  (forall g, (exists k, id_free db (candidate g k)) <->
             (exists fuel, returns (generate_id fuel db g))) /\
  ((exists s, eight_digits s /\ id_free db s) ->
   (exists g, returns (generate_id 1 db g)) /\
   (forall M : Z, exists n : nat,
       M * Z.of_nat (length (filter (fun run => still_looping db n run = true)
                                    (runs n)))
       < Z.of_nat (length (runs n)))) /\
  ((forall s, eight_digits s -> id_taken db s) ->
   forall g fuel, generate_id fuel db g = OutOfFuel).
Proof.
  split; [apply free_id|]. split; [apply generate_id_returns_iff|]. split.
  - intros Hfree. split; [|intros M; by apply still_looping_vanishes].
    destruct Hfree as (s & H8 & Hfree).
    exists (rng_of_run [s]).
    destruct (generate_id_free db 0 (rng_of_run [s]) 1%nat ltac:(lia))
      as (j & _ & _ & ->); [|by eexists].
    by rewrite (candidate_run [s] 0 s).
  - intros Hall g fuel. by apply generate_id_stuck.
Qed.

(** ** Further properties of [Note.save] *)

(** While the draws are taken the loop goes on; it stops at the first free
    one. *)
Lemma generate_id_first (db : database) (k : nat) :
  forall g fuel,
    (k < fuel)%nat ->
    (forall j, (j < k)%nat -> id_taken db (candidate g j)) ->
    id_free db (candidate g k) ->
    generate_id fuel db g = Ok (candidate g k, advance (8 * S k) g).
Proof.
  induction k as [|k IH]; intros g fuel Hk Htaken Hfree;
    (destruct fuel as [|fuel]; [lia|]); rewrite generate_id_S.
  - by rewrite Hfree.
  - rewrite (Htaken 0%nat) by lia; simpl.
    rewrite (IH (advance 8 g) fuel); [| lia | | by rewrite candidate_advance].
    + rewrite candidate_advance, advance_advance. do 3 f_equal. lia.
    + intros j Hj. rewrite candidate_advance. apply Htaken. lia.
Qed.

Lemma prepared_drawn_id (s : string) (z : Z) (self : Note) :
  get_prep_value (note_id (set_id (PkStr s) self)) = Ok (Some z) <-> stored_as s z.
Proof.
  unfold stored_as, get_prep_value; cbn [set_id note_id].
  destruct (int s) as [z'| |]; simpl; split; congruence.
Qed.

(** X1. [save] retries past collisions: when the first [k] ids drawn are
    taken and the next one is free, a Note without id leaves the call with
    exactly that id, stored under its number, and the generator has given
    eight draws for each of the [k + 1] turns. *)
Theorem save_takes_first_free_draw (fuel : nat) (g : rng) (db : database)
    (self : Note) (k : nat) :
  truthy (note_id self) = false ->
  note_user self ∈ users db ->
  (k < fuel)%nat ->
  (forall j, (j < k)%nat -> id_taken db (candidate g j)) ->
  id_free db (candidate g k) ->
  exists z db',
    Note_save fuel g db self
    = Ok (set_id (PkStr (candidate g k)) self, db', advance (8 * S k) g) /\
    stored_as (candidate g k) z /\
    is_Some (notes db' !! z).
Proof.
  intros Ht Hu Hk Htaken Hfree.
  pose proof Hfree as (z & Hz & _)%id_free_iff.
  rewrite Note_save_unset, (generate_id_first db k) by done; simpl.
  rewrite (Model_save_stored _ _ z); [|by apply prepared_drawn_id|done]; simpl.
  eexists z, _. split; [done|]. split; [done|].
  simpl. rewrite lookup_insert_eq. by eexists.
Qed.

(** X2. Saving a Note without id overwrites nothing: every row stored before
    is still there as it was, the table has exactly one row more, and users
    and references are untouched. *)
Theorem save_new_note_keeps_stored_rows (fuel : nat) (g : rng) (db : database)
    (self self' : Note) (db' : database) (g' : rng) :
  truthy (note_id self) = false ->
  Note_save fuel g db self = Ok (self', db', g') ->
  (forall z row, notes db !! z = Some row -> notes db' !! z = Some row) /\
  size (notes db') = S (size (notes db)) /\
  users db' = users db /\
  references db' = references db.
Proof.
  intros Ht (z & Hz & -> & Hcase)%Note_save_Ok.
  destruct Hcase as [(Ht' & _)|(_ & s & -> & _ & Hfree & _)]; [congruence|].
  apply id_free_iff in Hfree as (z' & Hz' & Hnew).
  apply prepared_drawn_id in Hz. unfold stored_as in *.
  assert (z' = z) as -> by congruence.
  assert (notes db !! z = None) as Hnone.
  { by apply not_elem_of_dom. }
  simpl. split; [|split; [|done]].
  - intros z1 row Hrow. rewrite lookup_insert_ne; [done|]. congruence.
  - by apply map_size_insert_None.
Qed.

(** X3. Saving a Note whose id is a number other than 0 draws nothing and
    writes one row: the instance and the generator come back as they went
    in, every other row is as before, and when the Note was stored already
    the set of stored ids does not change. *)
Theorem save_existing_note_rewrites_one_row (fuel : nat) (g : rng)
    (db : database) (self self' : Note) (db' : database) (g' : rng) (z : Z) :
  note_id self = PkInt z ->
  z <> 0 ->
  Note_save fuel g db self = Ok (self', db', g') ->
  self' = self /\ g' = g /\
  is_Some (notes db' !! z) /\
  (forall z', z' <> z -> notes db' !! z' = notes db !! z') /\
  (is_Some (notes db !! z) -> stored_ids db' = stored_ids db) /\
  users db' = users db /\
  references db' = references db.
Proof.
  intros Hid Hz (z1 & Hz1 & -> & Hcase)%Note_save_Ok.
  assert (truthy (note_id self) = true) as Ht.
  { rewrite Hid; simpl. by destruct (Z.eqb_spec z 0). }
  destruct Hcase as [(_ & -> & ->)|(Ht' & _)]; [|congruence].
  rewrite Hid in Hz1. injection Hz1 as <-.
  split; [done|]. split; [done|]. simpl.
  split. { rewrite lookup_insert_eq. by eexists. }
  split. { intros z' Hne. by rewrite lookup_insert_ne. }
  split; [|done].
  intros Hin%elem_of_dom. unfold stored_ids; simpl.
  rewrite dom_insert_L. apply set_eq. intros x.
  rewrite elem_of_union, elem_of_singleton.
  split; [by intros [->|?]|by right].
Qed.

(** X4. What [save] stores is what [get_object] reads back: after a call that
    returns, the Note fetched under the number of the instance's id has that
    number as id and the instance's owner, title, content, visibility, edit
    time, counters and tags. *)
Theorem save_then_get_object (fuel : nat) (g : rng) (db : database)
    (self self' : Note) (db' : database) (g' : rng) :
  Note_save fuel g db self = Ok (self', db', g') ->
  exists z note,
    get_prep_value (note_id self') = Ok (Some z) /\
    (forall req, req_pk req = z -> get_object db' req = Some note) /\
    note_id note = PkInt z /\
    note_user note = note_user self /\
    note_title note = note_title self /\
    note_content note = note_content self /\
    note_is_public note = note_is_public self /\
    note_last_edited note = note_last_edited self /\
    note_view_count note = note_view_count self /\
    note_clone_count note = note_clone_count self /\
    note_tags note = note_tags self.
Proof.
  intros (z & Hz & -> & Hcase)%Note_save_Ok.
  exists z, (load z (reindex (set_id (PkInt z) self'))).
  split; [done|]. split.
  { intros req <-. unfold get_object; simpl. by rewrite lookup_insert_eq. }
  destruct Hcase as [(_ & -> & _)|(_ & s & -> & _)]; by repeat split.
Qed.

Lemma Note_save_owner (fuel : nat) (g : rng) (db : database)
    (self self' : Note) (db' : database) (g' : rng) :
  Note_save fuel g db self = Ok (self', db', g') ->
  note_user self' ∈ users db /\ truthy (note_id self') = true.
Proof.
  intros Hsave.
  pose proof (Note_save_Ok _ _ _ _ _ _ _ Hsave) as (z & _ & _ & Hcase).
  unfold Note_save in Hsave.
  destruct Hcase as [(Ht & -> & _)|(Ht & s & -> & [Hlen _] & _ & G)].
  - rewrite Ht in Hsave; simpl in Hsave.
    destruct (Model_save db self) eqn:E; [|done..].
    by apply Model_save_Ok in E as (_ & _ & ? & _).
  - rewrite Ht, G in Hsave; simpl in Hsave.
    destruct (Model_save db (set_id (PkStr s) self)) eqn:E; [|done..].
    apply Model_save_Ok in E as (_ & _ & ? & _).
    split; [done|]. simpl. by destruct s.
Qed.

(** X5. Saving again the instance a [save] gave back changes nothing: the
    second call returns the same instance, the same tables and draws
    nothing, whatever the fuel. *)
Theorem save_again_changes_nothing (fuel fuel2 : nat) (g : rng) (db : database)
    (self self' : Note) (db' : database) (g' : rng) :
  Note_save fuel g db self = Ok (self', db', g') ->
  Note_save fuel2 g' db' self' = Ok (self', db', g').
Proof.
  intros Hsave.
  pose proof (Note_save_owner _ _ _ _ _ _ _ Hsave) as [Hu Ht].
  apply Note_save_Ok in Hsave as (z & Hz & -> & _).
  rewrite Note_save_set by done.
  rewrite (Model_save_stored _ _ z) by done; simpl.
  do 3 f_equal. unfold set_notes; simpl. f_equal. apply insert_insert_eq.
Qed.

(** X6. No free id is out of reach: for every free eight-digit id some run
    of the generator makes [save] give exactly that id to a Note without
    one. *)
Theorem every_free_id_can_be_assigned (db : database) (self : Note) (s : string) :
  truthy (note_id self) = false ->
  note_user self ∈ users db ->
  eight_digits s ->
  id_free db s ->
  exists g db' g',
    Note_save 1 g db self = Ok (set_id (PkStr s) self, db', g').
Proof.
  intros Ht Hu H8 Hfree. exists (rng_of_run [s]).
  assert (candidate (rng_of_run [s]) 0 = s) as Hc by (by apply candidate_run).
  pose proof Hfree as (z & Hz & _)%id_free_iff.
  rewrite Note_save_unset, generate_id_S, Hc, Hfree by done; simpl.
  rewrite (Model_save_stored _ _ z); [|by apply prepared_drawn_id|done]; simpl.
  by eexists _, _.
Qed.


(** ** Further properties of the cascades *)




(** ** Further properties of the notes list *)

Lemma get_queryset_nil (db : database) (u : Z) :
  (forall z row, notes db !! z = Some row -> note_user row <> u) ->
  NotesView_get_queryset db u = [].
Proof.
  intros Hnone.
  destruct (NotesView_get_queryset db u) as [|n l] eqn:E; [done|].
  assert (n ∈ NotesView_get_queryset db u) as Hn by (rewrite E; left).
  apply get_queryset_elem_of in Hn as (z & row & Hrow & Hu & _).
  by destruct (Hnone z row Hrow).
Qed.

(** X10. A user without Notes gets an empty first page, not a 404: with no
    page given, with page 1 and with page "last" alike the list view renders
    [notes.html] with no Notes. *)
Theorem notes_list_of_no_notes (db : database) (req : request) (u : Z) :
  req_user req = User u ->
  req_method req = GET ->
  (forall z row, notes db !! z = Some row -> note_user row <> u) ->
  req_page req = PageAbsent \/ req_page req = PageInt 1 \/ req_page req = PageLast ->
  NotesView db req = TemplateResponse "notes.html" (ListContext []).
Proof.
  intros Hu Hm Hnone Hp. unfold NotesView.
  rewrite Hu, Hm, (get_queryset_nil db u Hnone).
  by destruct Hp as [->|[->| ->]].
Qed.

(** X11. A page outside the list is a 404: a page number below 1 or above
    the number of pages, or a page argument that is neither a number nor
    "last", never renders a list. *)
Theorem notes_list_page_out_of_range (db : database) (req : request) (u : Z) :
  req_user req = User u ->
  req_method req = GET ->
  (req_page req = PageOther \/
   exists n, req_page req = PageInt n /\
             (n < 1 \/
              num_pages (Z.of_nat (length (NotesView_get_queryset db u))) < n)) ->
  NotesView db req = Http404.
Proof.
  intros Hu Hm Hp. unfold NotesView. rewrite Hu, Hm.
  destruct Hp as [->|(n & -> & Hn)]; [done|]; simpl.
  by rewrite Paginator_page_out_of_range.
Qed.

Lemma length_chunk_full {A : Type} (l : list A) (i : nat) :
  Z.of_nat i + 1 < num_pages (Z.of_nat (length l)) -> length (chunk l i) = 24%nat.
Proof.
  intros Hi.
  pose proof (num_pages_bounds (Z.of_nat (length l)) ltac:(lia)) as [_ Hb].
  unfold chunk. rewrite length_take, length_drop. lia.
Qed.

Lemma chunk_last_nonempty {A : Type} (l : list A) :
  l <> [] ->
  chunk l (Z.to_nat (num_pages (Z.of_nat (length l)) - 1)) <> [].
Proof.
  intros Hl Hnil. apply (f_equal length) in Hnil.
  pose proof (num_pages_bounds (Z.of_nat (length l)) ltac:(lia)) as [H1 Hb].
  assert (0 < length l)%nat by (destruct l; [done|simpl; lia]).
  unfold chunk in Hnil. rewrite length_take, length_drop in Hnil.
  change (length (@nil A)) with 0%nat in Hnil. lia.
Qed.

Lemma Paginator_page_number {A : Type} (l : list A) (n : Z) :
  1 <= n <= num_pages (Z.of_nat (length l)) ->
  Paginator_page l n = Some (chunk l (Z.to_nat (n - 1))).
Proof.
  intros Hn. rewrite <- (Paginator_page_in_range l (Z.to_nat (n - 1))) by lia.
  f_equal. lia.
Qed.

(** X12. Pages are full but the last: every page before the last one renders
    exactly 24 Notes, and page "last" renders at least one Note as soon as
    the user has any. *)
Theorem notes_list_pages_full_but_last (db : database) (req : request) (u : Z) :
  req_user req = User u ->
  req_method req = GET ->
  (forall i : nat,
      req_page req = PageInt (Z.of_nat i + 1) ->
      Z.of_nat i + 1 < num_pages (Z.of_nat (length (NotesView_get_queryset db u))) ->
      exists object_list,
        NotesView db req = TemplateResponse "notes.html" (ListContext object_list) /\
        length object_list = 24%nat) /\
  (req_page req = PageLast ->
   NotesView_get_queryset db u <> [] ->
   exists object_list,
     NotesView db req = TemplateResponse "notes.html" (ListContext object_list) /\
     object_list <> []).
Proof.
  intros Hu Hm. unfold NotesView. rewrite Hu, Hm. split.
  - intros i -> Hi; cbn [paginate_queryset].
    rewrite Paginator_page_in_range by lia.
    eexists. split; [done|]. by apply length_chunk_full.
  - intros -> Hne; cbn [paginate_queryset].
    pose proof (num_pages_bounds
                  (Z.of_nat (length (NotesView_get_queryset db u))) ltac:(lia))
      as [H1 _].
    rewrite Paginator_page_number by lia.
    eexists. split; [done|]. by apply chunk_last_nonempty.
Qed.

(** ** Further properties of the note views *)


(** X14. [CloneNoteView.dispatch] answers the anonymous user by what is
    stored, before any login check: a missing Note is a 404, a private Note
    the redirect to the notes list, a public Note the redirect to the login
    page; in all three cases nothing changes. *)
Theorem clone_answers_anonymous_by_visibility (fuel : nat) (g : rng)
    (db : database) (req : request) :
  req_user req = AnonymousUser ->
  (notes db !! req_pk req = None ->
   CloneNoteView_dispatch fuel g db req = Ok (Http404, db, g)) /\
  (forall row, notes db !! req_pk req = Some row ->
     CloneNoteView_dispatch fuel g db req =
     Ok (if note_is_public row then RedirectToLogin
         else HttpResponseRedirect "notes", db, g)).
Proof.
  intros Hu. unfold CloneNoteView_dispatch, get_object. split.
  - by intros ->.
  - intros row ->; simpl. rewrite Hu; simpl.
    destruct (note_is_public row); simpl; [|done].
    unfold CreateNoteView_dispatch. by rewrite Hu.
Qed.

(** X15. The clone view changes something only on a valid POST of an
    authenticated user who may clone a stored Note: whenever a call returns
    with other tables or another generator than it was given, the source is
    stored, the requester is logged in and may clone it, the method is POST
    and the form validates. *)
Theorem clone_changes_only_on_valid_post (fuel : nat) (g : rng) (db : database)
    (req : request) (r : response) (db' : database) (g' : rng) :
  CloneNoteView_dispatch fuel g db req = Ok (r, db', g') ->
  db' <> db \/ g' <> g ->
  exists row u data, clone_request db req row u data.
Proof.
  intros Hd Hchange.
  assert (db' = db /\ g' = g -> False) as Hsame.
  { intros [-> ->]. by destruct Hchange. }
  destruct (notes db !! req_pk req) as [row|] eqn:Hrow.
  2:{ exfalso. apply Hsame. unfold CloneNoteView_dispatch, get_object in Hd.
      rewrite Hrow in Hd. by injection Hd as _ <- <-. }
  destruct (may_clone_dec row (req_user req)) as [Hmay|Hno].
  2:{ exfalso. apply Hsame.
      rewrite (clone_dispatch_refused _ _ _ _ _ Hrow Hno) in Hd.
      by injection Hd as _ <- <-. }
  rewrite (clone_dispatch_allowed _ _ _ _ _ Hrow Hmay) in Hd.
  unfold CreateNoteView_dispatch in Hd.
  destruct (req_user req) as [|u] eqn:Hu.
  { exfalso. apply Hsame. by injection Hd as _ <- <-. }
  destruct (req_method req) as [|data] eqn:Hm.
  { exfalso. apply Hsame. by injection Hd as _ <- <-. }
  unfold CloneNoteView_post in Hd. rewrite (get_initial_stored _ _ _ Hrow) in Hd.
  destruct (NoteForm_is_valid data) eqn:Hv.
  2:{ exfalso. apply Hsame. by injection Hd as _ <- <-. }
  exists row, u, data. unfold clone_request. by rewrite Hu, Hm.
Qed.

(** ** Properties of the user views *)

(** X16. Signing up is for the anonymous only, and once per session: a
    valid form posted by an anonymous user stores what the form saves, logs
    that user in and redirects to the checkout address; and from then on
    every request to the view in that session, whatever its method and its
    form, is redirected to the revision address with nothing stored. *)
Theorem signup_once_per_session `{UserForms} (db : database) (data : SignUpData) :
  SignUpForm_is_valid data = true ->
  exists user db1,
    SignUpForm_save data db = (user, db1) /\
    SignUp_dispatch db AnonymousUser (FormPOST data)
    = (UserRedirect (reverse_lazy "checkout"), db1, User user) /\
    (forall method,
        SignUp_dispatch db1 (User user) method
        = (UserRedirect (reverse_lazy "revision"), db1, User user)).
Proof.
  intros Hv. destruct (SignUpForm_save data db) as [user db1] eqn:E.
  exists user, db1. split; [done|]. split; [|done].
  unfold SignUp_dispatch, SignUp_form_valid; simpl. by rewrite Hv, E.
Qed.

(** X17. The sign-up view changes the tables or the session's user only
    when an anonymous user posts a valid form: a GET, an invalid form and
    any request of a logged-in user leave both as they were. *)
Theorem signup_changes_only_on_valid_post `{UserForms} (db : database)
    (session : request_user)
    (method : form_method SignUpData) (r : user_response) (db' : database)
    (session' : request_user) :
  SignUp_dispatch db session method = (r, db', session') ->
  db' <> db \/ session' <> session ->
  session = AnonymousUser /\
  exists data, method = FormPOST data /\ SignUpForm_is_valid data = true /\
               r = UserRedirect (reverse_lazy "checkout").
Proof.
  unfold SignUp_dispatch. intros Hd Hchange.
  assert (db' = db /\ session' = session -> False) as Hsame.
  { intros [-> ->]. by destruct Hchange. }
  destruct session as [|u]; simpl in Hd.
  2:{ exfalso. apply Hsame. by injection Hd as _ <- <-. }
  split; [done|].
  destruct method as [|data].
  { exfalso. apply Hsame. by injection Hd as _ <- <-. }
  destruct (SignUpForm_is_valid data) eqn:Hv.
  2:{ exfalso. apply Hsame. by injection Hd as _ <- <-. }
  exists data. split; [done|]. split; [done|].
  unfold SignUp_form_valid in Hd.
  destruct (SignUpForm_save data db). by injection Hd as <- _ _.
Qed.

Lemma last_char_append (s1 s2 : string) :
  last_char (s1 +:+ s2) =
  match last_char s2 with Some c => Some c | None => last_char s1 end.
Proof.
  induction s1 as [|c s1 IH].
  - change (EmptyString +:+ s2) with s2. by destruct (last_char s2).
  - change (String c s1 +:+ s2) with (String c (s1 +:+ s2)).
    cbn [last_char]. rewrite IH. by destruct (last_char s2), (last_char s1).
Qed.

(** X18. The settings view never redirects to the address its [success_url]
    spells out: [success_url] being a method, what a valid form is
    redirected to is the text of the bound method, which ends in ">", and
    for no URL configuration and no view object is that the account settings
    address followed by "?changed=true". *)
Theorem settings_never_reaches_its_success_url `{UserForms} (self_repr : string)
    (session : request_user) (method : form_method SettingsData) :
  Settings_dispatch self_repr session method <> UserRedirect Settings_success_url /\
  (forall to, Settings_dispatch self_repr session method = UserRedirect to ->
              to = bound_method_str "Settings.success_url" self_repr /\
              last_char to = Some ">"%char).
Proof.
  assert (last_char (Settings_get_success_url self_repr) = Some ">"%char) as Hlast.
  { unfold Settings_get_success_url, bound_method_str.
    by rewrite !last_char_append. }
  assert (last_char Settings_success_url = Some "e"%char) as Hbody.
  { unfold Settings_success_url. by rewrite last_char_append. }
  unfold Settings_dispatch.
  destruct (is_authenticated session); [|by split].
  destruct method as [|data]; [by split|].
  destruct (SettingsForm_is_valid data); [|by split].
  split.
  - intros [= Heq]. rewrite Heq, Hbody in Hlast. discriminate.
  - intros to [= <-]. by split.
Qed.

(** X19. An id does not stay retired: once the Note stored under a number is
    deleted, the eight-digit id of that number is free again, and some run
    of the generator makes [save] give it to the next Note without id. *)
Theorem deleted_id_can_be_assigned_again (db : database) (self : Note)
    (s : string) (z : Z) :
  eight_digits s ->
  stored_as s z ->
  truthy (note_id self) = false ->
  note_user self ∈ users db ->
  id_free (Note_delete z db) s /\
  exists g db' g',
    Note_save 1 g (Note_delete z db) self = Ok (set_id (PkStr s) self, db', g') /\
    is_Some (notes db' !! z).
Proof.
  intros H8 Hz Ht Hu.
  assert (id_free (Note_delete z db) s) as Hfree.
  { apply id_free_iff. exists z. split; [done|].
    unfold stored_ids, Note_delete; simpl. apply not_elem_of_dom, lookup_delete_eq. }
  split; [done|]. exists (rng_of_run [s]).
  assert (candidate (rng_of_run [s]) 0 = s) as Hc by (by apply candidate_run).
  rewrite Note_save_unset, generate_id_S, Hc, Hfree by done; simpl.
  rewrite (Model_save_stored _ _ z); [|by apply prepared_drawn_id|done]; simpl.
  eexists _, _. split; [done|]. simpl. rewrite lookup_insert_eq. by eexists.
Qed.

(** ** Further facts about the sample instance *)

Lemma sample_draft_saved :
  Note_save 1 sample_counting sample_db sample_draft
  = Ok (sample_saved_draft, sample_db_saved, advance 8 sample_counting).
Proof. reflexivity. Qed.

Lemma sample_lecture_saved :
  Note_save 1 sample_counting sample_db sample_lecture
  = Ok (sample_lecture, sample_db_lecture_saved, sample_counting).
Proof. reflexivity. Qed.

Lemma sample_crowded_collision :
  forall j, (j < 1)%nat -> id_taken sample_db_crowded (candidate sample_counting j).
Proof. intros [|j] Hj; [reflexivity|lia]. Qed.

Lemma sample_crowded_free : id_free sample_db_crowded (candidate sample_counting 1).
Proof. reflexivity. Qed.

Lemma sample_user_crowded : 1 ∈ users sample_db_crowded.
Proof. simpl. set_solver. Qed.

Lemma sample_reader_has_no_notes :
  forall z row, notes sample_db !! z = Some row -> note_user row <> 3.
Proof.
  intros z row. unfold sample_db; simpl.
  rewrite lookup_insert_Some, lookup_singleton_Some.
  intros [[_ <-]|[_ [_ <-]]]; simpl; lia.
Qed.

(** ** Facts about the sample instance *)

Lemma sample_lecture_stored : notes sample_db !! 12 = Some sample_lecture.
Proof. reflexivity. Qed.

Lemma sample_recipe_stored : notes sample_db !! 0 = Some sample_recipe.
Proof. reflexivity. Qed.

Lemma sample_id_free : id_free sample_db (candidate sample_counting 0).
Proof. reflexivity. Qed.

Lemma sample_user_stored : 1 ∈ users sample_db.
Proof. simpl. set_solver. Qed.

Lemma sample_references_valid : references_valid sample_db.
Proof.
  intros k r Hk. change (({[1 := sample_link]} : gmap Z Reference) !! k = Some r) in Hk.
  apply lookup_singleton_Some in Hk as [<- <-]. by exists sample_lecture.
Qed.

End Notes.

(** ** The theorems at the sample instance

    Search vectors are strings here; the views run with the sample form
    validation and redirect address, one turn of fuel and the counting
    generator. *)

Local Abbreviation the_db := (@sample_db string).
Local Abbreviation save := (Note_save sample_search_vector 1 sample_counting).
Local Abbreviation clone :=
  (CloneNoteView_dispatch sample_search_vector sample_tags_to_string
     sample_NoteForm_is_valid sample_get_success_url 1 sample_counting).
Local Abbreviation create :=
  (CreateNoteView_dispatch sample_search_vector sample_tags_to_string
     sample_NoteForm_is_valid sample_get_success_url 1 sample_counting).

Lemma save_syncs_document_vector_witness :
  returns (save the_db (@sample_draft string)).
Proof.
  apply (save_syncs_document_vector sample_search_vector 1 sample_counting
           the_db (@sample_draft string)).
  split; [apply sample_user_stored|]. right. split; [reflexivity|].
  exists 0%nat. split; [lia|apply sample_id_free].
Defined.

Lemma save_assigns_one_fresh_id_witness :
  exists s z self' db' g',
    save the_db (@sample_draft string) = Ok (self', db', g') /\
    note_id self' = PkStr s /\
    eight_digits s /\
    stored_as s z /\
    (0 <= z < 10 ^ 8) /\
    (z ∉ stored_ids the_db) /\
    stored_ids db' = {[z]} ∪ stored_ids the_db.
Proof.
  apply (save_assigns_one_fresh_id sample_search_vector 1 sample_counting
           the_db (@sample_draft string) 0).
  - reflexivity.
  - apply sample_user_stored.
  - lia.
  - apply sample_id_free.
Defined.

Lemma save_replaces_id_zero_witness :
  note_id (@sample_resaved string) <> note_id (@sample_recipe string) /\
  exists s z,
    note_id (@sample_resaved string) = PkStr s /\
    eight_digits s /\
    stored_as s z /\
    z <> 0 /\
    is_Some (notes (sample_db_resaved sample_search_vector) !! z) /\
    notes (sample_db_resaved sample_search_vector) !! 0 = notes the_db !! 0.
Proof.
  apply (save_replaces_id_zero sample_search_vector 1 sample_counting the_db
           (@sample_recipe string) (@sample_resaved string)
           (sample_db_resaved sample_search_vector) (advance 8 sample_counting)).
  - reflexivity.
  - exists (@sample_recipe string). apply sample_recipe_stored.
  - reflexivity.
Defined.

Lemma private_note_hidden_from_others_witness :
  ViewNoteView the_db sample_peek = (HttpResponseRedirect "notes", the_db) /\
  shown (ViewNoteView the_db sample_peek).1 = None.
Proof.
  apply (private_note_hidden_from_others the_db sample_peek 2 (@sample_lecture string)).
  - apply sample_lecture_stored.
  - reflexivity.
  - reflexivity.
  - simpl. lia.
Defined.

Lemma clone_dispatch_guard_witness :
  (may_clone (@sample_lecture string) (req_user sample_clone_refused) <->
   clone the_db sample_clone_refused
   = create the_db sample_clone_refused) /\
  (~ may_clone (@sample_lecture string) (req_user sample_clone_refused) ->
   clone the_db sample_clone_refused
   = Ok (HttpResponseRedirect "notes", the_db, sample_counting)).
Proof.
  apply (clone_dispatch_guard sample_search_vector sample_tags_to_string
           sample_NoteForm_is_valid sample_get_success_url 1 sample_counting
           the_db sample_clone_refused (@sample_lecture string)).
  apply sample_lecture_stored.
Defined.

Lemma sample_clone_request_holds :
  clone_request sample_NoteForm_is_valid the_db sample_clone_post
                (@sample_recipe string) 1 sample_posted.
Proof.
  split; [apply sample_recipe_stored|]. split; [reflexivity|]. split; [reflexivity|].
  split; [reflexivity|]. left. reflexivity.
Qed.

Lemma clone_increments_source_counter_witness :
  exists r db' g' row',
    clone the_db sample_clone_post
    = Ok (r, db', g') /\
    notes db' !! req_pk sample_clone_post = Some row' /\
    note_clone_count row' = note_clone_count (@sample_recipe string) + 1 /\
    (forall z, z <> req_pk sample_clone_post -> z ∈ stored_ids the_db ->
               notes db' !! z = notes the_db !! z).
Proof.
  apply (clone_increments_source_counter sample_search_vector sample_tags_to_string
           sample_NoteForm_is_valid sample_get_success_url 1 sample_counting
           the_db sample_clone_post (@sample_recipe string) 1 sample_posted 0).
  - apply sample_clone_request_holds.
  - apply sample_user_stored.
  - lia.
  - apply sample_id_free.
Defined.

Lemma clone_prepopulates_form_witness :
  (req_method sample_clone_get = GET ->
   exists initial : gmap string string,
     clone the_db sample_clone_get
     = Ok (TemplateResponse "clone_note.html" (FormContext initial),
           the_db, sample_counting) /\
     initial !! "title" = Some (note_title (@sample_recipe string)) /\
     initial !! "content" = Some (note_content (@sample_recipe string)) /\
     initial !! "tags"
       = Some (sample_tags_to_string (note_tags (@sample_recipe string))) /\
     dom initial = {[ "title"; "content"; "tags" ]}) /\
  (forall r db' g',
     clone the_db sample_clone_get
     = Ok (r, db', g') ->
     exists row',
       notes db' !! req_pk sample_clone_get = Some row' /\
       note_title row' = note_title (@sample_recipe string) /\
       note_content row' = note_content (@sample_recipe string) /\
       note_is_public row' = note_is_public (@sample_recipe string)).
Proof.
  apply (clone_prepopulates_form sample_search_vector sample_tags_to_string
           sample_NoteForm_is_valid sample_get_success_url 1 sample_counting
           the_db sample_clone_get (@sample_recipe string) 1).
  - apply sample_recipe_stored.
  - reflexivity.
  - left. reflexivity.
Defined.

Lemma no_reference_outlives_its_note_witness :
  references_valid (Note_delete 0 the_db) /\
  notes (Note_delete 12 (Note_delete 0 the_db)) !! 12 = None /\
  (forall k r, references (Note_delete 0 the_db) !! k = Some r ->
               ref_note r = 12 ->
               references (Note_delete 12 (Note_delete 0 the_db)) !! k = None) /\
  (forall k r, references (Note_delete 0 the_db) !! k = Some r ->
               ref_note r <> 12 ->
               references (Note_delete 12 (Note_delete 0 the_db)) !! k = Some r) /\
  references_valid (Note_delete 12 (Note_delete 0 the_db)).
Proof.
  apply (no_reference_outlives_its_note sample_search_vector sample_tags_to_string
           sample_NoteForm_is_valid sample_get_success_url
           the_db (Note_delete 0 the_db) 12).
  - apply sample_references_valid.
  - apply rtc_once. apply step_Note_delete.
Defined.

Lemma notes_list_own_sorted_paged_witness :
  NotesView the_db sample_listing
  = TemplateResponse "notes.html"
      (ListContext (chunk (NotesView_get_queryset the_db 1) 0)).
Proof.
  apply (notes_list_own_sorted_paged the_db sample_listing 1).
  - reflexivity.
  - reflexivity.
  - reflexivity.
  - reflexivity.
Defined.

(** ** The further properties at the sample instance *)

Lemma save_takes_first_free_draw_witness :
  exists z db',
    Note_save sample_search_vector 2 sample_counting (@sample_db_crowded string)
      (@sample_draft string)
    = Ok (set_id (PkStr (candidate sample_counting 1)) (@sample_draft string), db',
          advance (8 * 2) sample_counting) /\
    stored_as (candidate sample_counting 1) z /\
    is_Some (notes db' !! z).
Proof.
  apply (save_takes_first_free_draw sample_search_vector 2 sample_counting
           (@sample_db_crowded string) (@sample_draft string) 1).
  - reflexivity.
  - apply sample_user_crowded.
  - lia.
  - apply sample_crowded_collision.
  - apply sample_crowded_free.
Defined.

Lemma save_new_note_keeps_stored_rows_witness :
  (forall z row, notes the_db !! z = Some row ->
                 notes (sample_db_saved sample_search_vector) !! z = Some row) /\
  size (notes (sample_db_saved sample_search_vector)) = S (size (notes the_db)) /\
  users (sample_db_saved sample_search_vector) = users the_db /\
  references (sample_db_saved sample_search_vector) = references the_db.
Proof.
  apply (save_new_note_keeps_stored_rows sample_search_vector 1 sample_counting
           the_db (@sample_draft string) (@sample_saved_draft string)
           (sample_db_saved sample_search_vector) (advance 8 sample_counting)).
  - reflexivity.
  - apply sample_draft_saved.
Defined.

Lemma save_existing_note_rewrites_one_row_witness :
  @sample_lecture string = @sample_lecture string /\
  sample_counting = sample_counting /\
  is_Some (notes (sample_db_lecture_saved sample_search_vector) !! 12) /\
  (forall z', z' <> 12 ->
     notes (sample_db_lecture_saved sample_search_vector) !! z' = notes the_db !! z') /\
  (is_Some (notes the_db !! 12) ->
   stored_ids (sample_db_lecture_saved sample_search_vector) = stored_ids the_db) /\
  users (sample_db_lecture_saved sample_search_vector) = users the_db /\
  references (sample_db_lecture_saved sample_search_vector) = references the_db.
Proof.
  apply (save_existing_note_rewrites_one_row sample_search_vector 1 sample_counting
           the_db (@sample_lecture string) (@sample_lecture string)
           (sample_db_lecture_saved sample_search_vector) sample_counting 12).
  - reflexivity.
  - lia.
  - apply sample_lecture_saved.
Defined.

Lemma save_then_get_object_witness :
  exists z note,
    get_prep_value (note_id (@sample_saved_draft string)) = Ok (Some z) /\
    (forall req, req_pk req = z ->
       get_object (sample_db_saved sample_search_vector) req = Some note) /\
    note_id note = PkInt z /\
    note_user note = note_user (@sample_draft string) /\
    note_title note = note_title (@sample_draft string) /\
    note_content note = note_content (@sample_draft string) /\
    note_is_public note = note_is_public (@sample_draft string) /\
    note_last_edited note = note_last_edited (@sample_draft string) /\
    note_view_count note = note_view_count (@sample_draft string) /\
    note_clone_count note = note_clone_count (@sample_draft string) /\
    note_tags note = note_tags (@sample_draft string).
Proof.
  apply (save_then_get_object sample_search_vector 1 sample_counting the_db
           (@sample_draft string) (@sample_saved_draft string)
           (sample_db_saved sample_search_vector) (advance 8 sample_counting)).
  apply sample_draft_saved.
Defined.

Lemma save_again_changes_nothing_witness :
  Note_save sample_search_vector 0 (advance 8 sample_counting)
    (sample_db_saved sample_search_vector) (@sample_saved_draft string)
  = Ok (@sample_saved_draft string, sample_db_saved sample_search_vector,
        advance 8 sample_counting).
Proof.
  apply (save_again_changes_nothing sample_search_vector 1 0 sample_counting the_db
           (@sample_draft string)).
  apply sample_draft_saved.
Defined.

Lemma every_free_id_can_be_assigned_witness :
  exists g db' g',
    Note_save sample_search_vector 1 g the_db (@sample_draft string)
    = Ok (set_id (PkStr "00000042") (@sample_draft string), db', g').
Proof.
  apply (every_free_id_can_be_assigned sample_search_vector the_db
           (@sample_draft string) "00000042").
  - reflexivity.
  - apply sample_user_stored.
  - split; reflexivity.
  - reflexivity.
Defined.



Lemma notes_list_of_no_notes_witness :
  NotesView the_db sample_listing_empty
  = TemplateResponse "notes.html" (ListContext []).
Proof.
  apply (notes_list_of_no_notes the_db sample_listing_empty 3).
  - reflexivity.
  - reflexivity.
  - apply sample_reader_has_no_notes.
  - right. right. reflexivity.
Defined.

Lemma notes_list_page_out_of_range_witness :
  NotesView the_db sample_listing_beyond = Http404.
Proof.
  apply (notes_list_page_out_of_range the_db sample_listing_beyond 1).
  - reflexivity.
  - reflexivity.
  - right. exists 5. split; [reflexivity|]. right. reflexivity.
Defined.

Lemma notes_list_pages_full_but_last_witness :
  exists object_list,
    NotesView the_db sample_listing_last
    = TemplateResponse "notes.html" (ListContext object_list) /\
    object_list <> [].
Proof.
  destruct (notes_list_pages_full_but_last the_db sample_listing_last 1
              eq_refl eq_refl) as [_ Hlast].
  apply Hlast; [reflexivity|]. intros Hnil. vm_compute in Hnil. discriminate.
Defined.

Lemma clone_answers_anonymous_by_visibility_witness :
  clone the_db sample_clone_anonymous
  = Ok (HttpResponseRedirect "notes", the_db, sample_counting).
Proof.
  destruct (clone_answers_anonymous_by_visibility sample_search_vector
              sample_tags_to_string sample_NoteForm_is_valid sample_get_success_url
              1 sample_counting the_db sample_clone_anonymous eq_refl)
    as [_ Hstored].
  apply (Hstored (@sample_lecture string)). apply sample_lecture_stored.
Defined.

Lemma sample_clone_posted :
  clone the_db sample_clone_post
  = Ok (HttpResponseRedirect (sample_get_success_url (@sample_cloned_note string)),
        sample_db_cloned sample_search_vector, advance 8 sample_counting).
Proof. reflexivity. Qed.

Lemma clone_changes_only_on_valid_post_witness :
  exists row u data,
    clone_request sample_NoteForm_is_valid the_db sample_clone_post row u data.
Proof.
  apply (clone_changes_only_on_valid_post sample_search_vector
           sample_tags_to_string sample_NoteForm_is_valid sample_get_success_url
           1 sample_counting the_db sample_clone_post
           (HttpResponseRedirect (sample_get_success_url (@sample_cloned_note string)))
           (sample_db_cloned sample_search_vector) (advance 8 sample_counting)).
  - apply sample_clone_posted.
  - right. discriminate.
Defined.

Lemma signup_once_per_session_witness :
  exists user db1,
    SignUpForm_save (UserForms := @sample_UserForms string) "ada" the_db
    = (user, db1) /\
    SignUp_dispatch (H := @sample_UserForms string) the_db AnonymousUser
      (FormPOST "ada")
    = (UserRedirect "/checkout/", db1, User user) /\
    (forall method,
        SignUp_dispatch (H := @sample_UserForms string) db1 (User user) method
        = (UserRedirect "/revision/", db1, User user)).
Proof.
  apply (signup_once_per_session (H := @sample_UserForms string) the_db "ada").
  reflexivity.
Defined.

Lemma signup_changes_only_on_valid_post_witness :
  AnonymousUser = AnonymousUser /\
  exists data : string,
    FormPOST "ada" = FormPOST data /\
    SignUpForm_is_valid (UserForms := @sample_UserForms string) data = true /\
    UserRedirect "/checkout/" = UserRedirect "/checkout/".
Proof.
  apply (signup_changes_only_on_valid_post (H := @sample_UserForms string)
           the_db AnonymousUser (FormPOST "ada") (UserRedirect "/checkout/")
           (SignUpForm_save (UserForms := @sample_UserForms string) "ada" the_db).2
           (User (SignUpForm_save (UserForms := @sample_UserForms string)
                    "ada" the_db).1)).
  - reflexivity.
  - right. discriminate.
Defined.

Lemma deleted_id_can_be_assigned_again_witness :
  id_free (Note_delete 12 the_db) "00000012" /\
  exists g db' g',
    Note_save sample_search_vector 1 g (Note_delete 12 the_db) (@sample_draft string)
    = Ok (set_id (PkStr "00000012") (@sample_draft string), db', g') /\
    is_Some (notes db' !! 12).
Proof.
  apply (deleted_id_can_be_assigned_again sample_search_vector the_db
           (@sample_draft string) "00000012" 12).
  - split; reflexivity.
  - reflexivity.
  - reflexivity.
  - apply sample_user_stored.
Defined.
